(** * A verification development for the [internet.ipynb] notebook

    The notebook builds a small protocol stack on raw Ethernet frames:
    address codecs, Ethernet / ARP / IPv4 / ICMP encoders and decoders,
    the Internet checksum, an ARP resolver with a process-wide table, and
    the two receive loops that wait (bounded by [select]) for an ARP
    response or an ICMP echo reply.

    Python values are embedded as follows.
    - [bytes] / [bytearray] : [list byte] (a [bytearray] is updated
      functionally);
    - [int]                 : [Z];
    - [str]                 : a [string], read as the sequence of its code
      points, all below 256;
    - a raised exception    : the [Raise] branch of [result];
    - the module-level dict [ARP_TABLE] : a [gmap] from byte strings to
      byte strings, held in the [World] that every effectful function
      threads;
    - the packet socket     : the [World]'s list of pending arrivals and
      its log of transmitted frames; for arrivals that never cease, a
      [transport], on which the receive loops run with fuel;
    - [time.time()] differences : exact rationals ([Q]). *)

From Stdlib Require Import ZArith QArith Lia Lqa.
From Stdlib Require Import Strings.Byte Strings.Ascii Strings.String.
From stdpp Require Import base option list gmap strings.

Local Open Scope Z_scope.

(** ** Bytes *)

Abbreviation bytes := (list byte).

#[global] Instance byte_eq_decision : EqDecision byte := Byte.byte_eq_dec.

#[global] Instance byte_countable : Countable byte :=
  inj_countable Byte.to_N Byte.of_N Byte.of_to_N.

(** The integer a byte stands for, as [bytes.__getitem__] gives it. *)
Definition byte_to_Z (b : byte) : Z := Z.of_N (Byte.to_N b).

(** The byte for an integer of [range(256)]; callers check the range. *)
Definition byte_of_Z (z : Z) : byte :=
  match Byte.of_N (Z.to_N z) with
  | Some b => b
  | None => x00
  end.

(** ** Exceptions *)

Inductive exn : Set :=
| IndexError
| ValueError
| OverflowError
| TypeError.

Inductive result (A : Type) : Type :=
| Ok (a : A)
| Raise (e : exn).
Arguments Ok {A} a.
Arguments Raise {A} e.

Definition rbind {A B : Type} (r : result A) (k : A -> result B) : result B :=
  match r with
  | Ok a => k a
  | Raise e => Raise e
  end.

Notation "x '<~' r ';;' k" := (rbind r (fun x => k))
  (at level 100, r at next level, right associativity).

(** Reading a result that is known to be [Ok] (module-level constants). *)
Definition expect {A : Type} (d : A) (r : result A) : A :=
  match r with
  | Ok a => a
  | Raise _ => d
  end.

(** ** Python primitives on byte strings *)

(** [data[a:b]] for [0 <= a]; Python clamps both ends to the length. *)
Definition slice (a b : nat) (data : bytes) : bytes :=
  take (b - a) (drop a data).

(** [data[i]] for [0 <= i]: the integer at [i], or [IndexError]. *)
Definition getitem (data : bytes) (i : nat) : result Z :=
  match data !! i with
  | Some b => Ok (byte_to_Z b)
  | None => Raise IndexError
  end.

(** [bytearray(n)] *)
Definition bytearray (n : nat) : bytes := replicate n x00.

(** [buf[i] = v] on a bytearray: the index is checked first, then the
    value must lie in [range(256)]. *)
Definition setitem (i : nat) (v : Z) (buf : bytes) : result bytes :=
  if decide (i < length buf)%nat then
    if decide (0 <= v < 256) then Ok (<[i := byte_of_Z v]> buf)
    else Raise ValueError
  else Raise IndexError.

(** [buf[a:b] = v] on a bytearray: the slice is replaced by [v], whatever
    the length of [v] (the array shrinks or grows). *)
Definition setslice (a b : nat) (v : bytes) (buf : bytes) : bytes :=
  take a buf ++ v ++ drop (Nat.max a b) buf.

(** [int.from_bytes(data, "big")] *)
Definition int_from_bytes (data : bytes) : Z :=
  fold_left (fun acc b => acc * 256 + byte_to_Z b) data 0.

(** The [len] big-endian digits of [n]. *)
Fixpoint be_digits (len : nat) (n : Z) : bytes :=
  match len with
  | O => []
  | S k => be_digits k (n / 256) ++ [byte_of_Z (n mod 256)]
  end.

(** [n.to_bytes(len, "big")]: [OverflowError] for a negative [n] or one
    that does not fit. *)
Definition int_to_bytes (len : nat) (n : Z) : result bytes :=
  if decide (0 <= n < 256 ^ Z.of_nat len) then Ok (be_digits len n)
  else Raise OverflowError.

(** [range(0, n, 2)] *)
Definition range_by_2 (n : nat) : list nat :=
  (fun k => 2 * k)%nat <$> seq 0 (Nat.div2 (n + 1)).

(** ** Address codecs *)

Definition hex_digit (c : ascii) : option Z :=
  let n := Z.of_nat (nat_of_ascii c) in
  if decide (48 <= n <= 57) then Some (n - 48)
  else if decide (97 <= n <= 102) then Some (n - 87)
  else if decide (65 <= n <= 70) then Some (n - 55)
  else None.

Definition is_ascii_space (c : ascii) : bool :=
  let n := nat_of_ascii c in
  bool_decide (n = 32 \/ 9 <= n <= 13)%nat.

(** [bytes.fromhex(s)]: pairs of hex digits, ASCII whitespace allowed
    between pairs only. *)
Fixpoint fromhex_chars (s : list ascii) : result bytes :=
  match s with
  | [] => Ok []
  | c :: s' =>
      if is_ascii_space c then fromhex_chars s'
      else
        match hex_digit c, s' with
        | Some hi, d :: s'' =>
            match hex_digit d with
            | Some lo =>
                rest <~ fromhex_chars s'' ;;
                Ok (byte_of_Z (16 * hi + lo) :: rest)
            | None => Raise ValueError
            end
        | _, _ => Raise ValueError
        end
  end.

Definition bytes_fromhex (s : string) : result bytes :=
  fromhex_chars (list_ascii_of_string s).

(** [s.replace(":", "")] *)
Definition remove_colons (s : string) : string :=
  string_of_list_ascii
    (filter (fun c => c <> ":"%char) (list_ascii_of_string s)).

Definition encode_mac_addr (mac_address : string) : result bytes :=
  bytes_fromhex (remove_colons mac_address).

(** [s.split(".")] on the characters of [s]. *)
Fixpoint split_dots (s : list ascii) : list (list ascii) :=
  match s with
  | [] => [[]]
  | c :: s' =>
      if decide (c = "."%char) then [] :: split_dots s'
      else
        match split_dots s' with
        | [] => [[c]]
        | g :: gs => (c :: g) :: gs
        end
  end.

(** [int(s)] for a [str] whose code points are all below 256, as
    [PyLong_FromUnicodeObject] reads it in base 10: surrounding white
    space is skipped, one sign may precede the digits, and single
    underscores may stand between two digits.  Every other text raises
    [ValueError]. *)
Definition is_int_space (c : ascii) : bool :=
  let n := nat_of_ascii c in
  bool_decide (n = 32 \/ 9 <= n <= 13 \/ n = 133 \/ n = 160)%nat.

Definition decimal_digit (c : ascii) : option Z :=
  let n := Z.of_nat (nat_of_ascii c) in
  if decide (48 <= n <= 57) then Some (n - 48) else None.

Fixpoint skip_int_space (s : list ascii) : list ascii :=
  match s with
  | c :: s' => if is_int_space c then skip_int_space s' else s
  | [] => []
  end.

(** The digits that follow a first digit: the value read so far and the
    characters left over, or [None] for an underscore that no digit
    follows. *)
Fixpoint int_digits (acc : Z) (s : list ascii) : option (Z * list ascii) :=
  match s with
  | [] => Some (acc, [])
  | c :: s' =>
      match decimal_digit c with
      | Some d => int_digits (10 * acc + d) s'
      | None =>
          if decide (c = "_"%char) then
            match s' with
            | c' :: s'' =>
                match decimal_digit c' with
                | Some d => int_digits (10 * acc + d) s''
                | None => None
                end
            | [] => None
            end
          else Some (acc, s)
      end
  end.

Definition int_of_str (s : list ascii) : result Z :=
  let s := skip_int_space s in
  let '(sign, s) :=
    match s with
    | c :: s' =>
        if decide (c = "+"%char) then (1, s')
        else if decide (c = "-"%char) then (-1, s')
        else (1, s)
    | [] => (1, s)
    end in
  match s with
  | c :: s' =>
      match decimal_digit c with
      | Some d =>
          match int_digits d s' with
          | Some (n, rest) =>
              match skip_int_space rest with
              | [] => Ok (sign * n)
              | _ :: _ => Raise ValueError
              end
          | None => Raise ValueError
          end
      | None => Raise ValueError
      end
  | [] => Raise ValueError
  end.

(** [bytes(ints)]: every integer must lie in [range(256)]. *)
Fixpoint bytes_of_ints (ints : list (result Z)) : result bytes :=
  match ints with
  | [] => Ok []
  | r :: ints' =>
      n <~ r ;;
      if decide (0 <= n < 256) then
        rest <~ bytes_of_ints ints' ;; Ok (byte_of_Z n :: rest)
      else Raise ValueError
  end.

(** [bytes(int(s) for s in ip4_addr.split("."))]: the generator is
    consumed as [bytes] asks for it, so the first group that is not an
    integer, or not in [range(256)], raises. *)
Definition encode_ip4_addr (ip4_addr : string) : result bytes :=
  bytes_of_ints (int_of_str <$> split_dots (list_ascii_of_string ip4_addr)).

(** ** Ethernet *)

Definition ethernet_frame (dst_addr src_addr ethertype payload : bytes) : bytes :=
  dst_addr ++ src_addr ++ ethertype ++ payload.

Definition ARP : bytes := expect [] (bytes_fromhex "08 06").
Definition IPV4 : bytes := expect [] (bytes_fromhex "08 00").
Definition IPV6 : bytes := expect [] (bytes_fromhex "86 DD").
Definition CUST : bytes := expect [] (bytes_fromhex "08 01").

Module EthernetFrame.
Record t : Type := mk
  { dst_addr : bytes; src_addr : bytes; ethertype : bytes; payload : bytes }.
End EthernetFrame.

Definition decode_ethernet_frame (data : bytes) : EthernetFrame.t :=
  {| EthernetFrame.dst_addr := slice 0 6 data;
     EthernetFrame.src_addr := slice 6 12 data;
     EthernetFrame.ethertype := slice 12 14 data;
     EthernetFrame.payload := drop 14 data |}.

(** ** ARP *)

Definition arp_request (src_mac_addr src_ip_addr dst_ip_addr : bytes) : bytes :=
  let hardware_type := expect [] (bytes_fromhex "00 01") in
  let protocol_type := expect [] (bytes_fromhex "08 00") in
  let hardware_len := expect [] (bytes_fromhex "06") in
  let protocol_len := expect [] (bytes_fromhex "04") in
  let operation := expect [] (bytes_fromhex "00 01") in
  let dst_mac_addr := expect [] (encode_mac_addr "00:00:00:00:00:00") in
  hardware_type ++ protocol_type ++ hardware_len ++ protocol_len
    ++ operation ++ src_mac_addr ++ src_ip_addr ++ dst_mac_addr ++ dst_ip_addr.

Definition MY_MAC_ADDR : bytes := expect [] (encode_mac_addr "1c:87:2c:46:e0:47").
Definition MY_IP_ADDR : bytes := expect [] (encode_ip4_addr "192.168.1.250").
Definition SUBNET_MASK : bytes := expect [] (encode_ip4_addr "255.255.255.0").
Definition ROUTER_IP_ADDR : bytes := expect [] (encode_ip4_addr "192.168.1.1").
Definition BROADCAST_MAC_ADDR : bytes :=
  expect [] (encode_mac_addr "ff:ff:ff:ff:ff:ff").

Module ArpPacket.
Record t : Type := mk
  { htype : bytes; ptype : bytes; hlen : bytes; plen : bytes; oper : bytes;
    sha : bytes; spa : bytes; tha : bytes; tpa : bytes }.
End ArpPacket.

Definition decode_arp_packet (data : bytes) : ArpPacket.t :=
  {| ArpPacket.htype := slice 0 2 data;
     ArpPacket.ptype := slice 2 4 data;
     ArpPacket.hlen := slice 4 5 data;
     ArpPacket.plen := slice 5 6 data;
     ArpPacket.oper := slice 6 8 data;
     ArpPacket.sha := slice 8 14 data;
     ArpPacket.spa := slice 14 18 data;
     ArpPacket.tha := slice 18 24 data;
     ArpPacket.tpa := slice 24 26 data |}.

(** ** Routing decision *)

(** [b1 & b2] on two bytes. *)
Definition byte_and (b1 b2 : byte) : byte :=
  byte_of_Z (Z.land (byte_to_Z b1) (byte_to_Z b2)).

Definition is_on_same_subnet (ip_addr : bytes) : bool :=
  let my_network_prefix :=
    (fun p => byte_and p.1 p.2) <$> zip MY_IP_ADDR SUBNET_MASK in
  let other_network_prefix :=
    (fun p => byte_and p.1 p.2) <$> zip ip_addr SUBNET_MASK in
  bool_decide (my_network_prefix = other_network_prefix).

(** ** Internet checksum *)

Definition sum_Z (l : list Z) : Z := foldr Z.add 0 l.

Definition calculate_checksum (header : bytes) : Z :=
  let words :=
    (fun i => int_from_bytes (slice i (i + 2) header))
      <$> range_by_2 (length header) in
  let full_sum := sum_Z words in
  let overflow := Z.shiftr full_sum 16 in
  let full_sum := Z.land full_sum 0xFFFF + overflow in
  let overflow := Z.shiftr full_sum 16 in
  let full_sum := Z.land full_sum 0xFFFF + overflow in
  Z.land (Z.lnot full_sum) 0xFFFF.

(** ** IPv4 *)

Definition ip4_packet (src_ip_addr dst_ip_addr : bytes) (protocol : Z)
    (payload : bytes) : result bytes :=
  let version := 4 in
  let ihl := 5 in
  let dscp := 0 in
  let ecn := 0 in
  let total_length := ihl * 4 + Z.of_nat (length payload) in
  let identification := 0 in
  let flags := 2 in
  let fragment_offset := 0 in
  let ttl := 64 in
  let header := bytearray (Z.to_nat (ihl * 4)) in
  header <~ setitem 0 (Z.shiftl version 4 + ihl) header ;;
  header <~ setitem 1 (Z.shiftl dscp 2 + ecn) header ;;
  v <~ int_to_bytes 2 total_length ;;
  let header := setslice 2 4 v header in
  v <~ int_to_bytes 2 identification ;;
  let header := setslice 4 6 v header in
  v <~ int_to_bytes 2 (Z.shiftl flags 13 + fragment_offset) ;;
  let header := setslice 6 8 v header in
  header <~ setitem 8 ttl header ;;
  header <~ setitem 9 protocol header ;;
  let header := setslice 12 16 src_ip_addr header in
  let header := setslice 16 20 dst_ip_addr header in
  let checksum := calculate_checksum header in
  v <~ int_to_bytes 2 checksum ;;
  let header := setslice 10 12 v header in
  Ok (header ++ payload).

Module Ipv4Packet.
Record t : Type := mk
  { version_ihl : Z; type : Z; length : bytes; id : bytes;
    flags_offset : bytes; ttl : Z; protocol : Z; checksum : bytes;
    src_addr : bytes; dst_addr : bytes; payload : bytes }.
End Ipv4Packet.

Definition decode_ipv4_packet (data : bytes) : result Ipv4Packet.t :=
  version_ihl <~ getitem data 0 ;;
  type <~ getitem data 1 ;;
  ttl <~ getitem data 8 ;;
  protocol <~ getitem data 9 ;;
  Ok {| Ipv4Packet.version_ihl := version_ihl;
        Ipv4Packet.type := type;
        Ipv4Packet.length := slice 2 4 data;
        Ipv4Packet.id := slice 4 6 data;
        Ipv4Packet.flags_offset := slice 6 8 data;
        Ipv4Packet.ttl := ttl;
        Ipv4Packet.protocol := protocol;
        Ipv4Packet.checksum := slice 10 12 data;
        Ipv4Packet.src_addr := slice 12 16 data;
        Ipv4Packet.dst_addr := slice 16 20 data;
        Ipv4Packet.payload := drop 20 data |}.

(** ** ICMP *)

Definition icmp_ping_request_packet (identifier sequence_no : Z) : result bytes :=
  let message_type := 8 in
  let message_code := 0 in
  let message := bytearray 8 in
  message <~ setitem 0 message_type message ;;
  message <~ setitem 1 message_code message ;;
  v <~ int_to_bytes 2 identifier ;;
  let message := setslice 4 6 v message in
  v <~ int_to_bytes 2 sequence_no ;;
  let message := setslice 6 8 v message in
  let message := message ++ list_byte_of_string "Python!!" in
  let checksum := calculate_checksum message in
  v <~ int_to_bytes 2 checksum ;;
  let message := setslice 2 4 v message in
  Ok message.

Module IcmpPacket.
Record t : Type := mk
  { type : Z; code : Z; checksum : bytes; identifier : Z;
    sequence_no : Z; payload : bytes }.
End IcmpPacket.

Definition decode_icmp_packet (data : bytes) : result IcmpPacket.t :=
  type <~ getitem data 0 ;;
  code <~ getitem data 1 ;;
  Ok {| IcmpPacket.type := type;
        IcmpPacket.code := code;
        IcmpPacket.checksum := slice 2 4 data;
        IcmpPacket.identifier := int_from_bytes (slice 4 6 data);
        IcmpPacket.sequence_no := int_from_bytes (slice 6 8 data);
        IcmpPacket.payload := drop 8 data |}.

(** ** The world: ARP table, interface and console

    Every packet socket the notebook opens is bound to the same interface,
    so the world holds one wire.  [pending] lists the frames that will still
    arrive: for each, the time it takes to become readable once [select] is
    waiting for it, and the bytes [socket.recv(65536)] then returns; after
    the last one the interface stays silent.  [sent] logs every frame handed
    to [socket.send], oldest first.  [waited] is the total time spent
    blocked inside [select].  [stdout] holds the lines printed by
    [open_packet_socket]. *)
Record World : Type := mkWorld
  { ARP_TABLE : gmap bytes bytes;
    pending : list (Q * bytes);
    sent : list bytes;
    waited : Q;
    stdout : list string }.

(** [print(line)] *)
Definition print (line : string) (w : World) : World :=
  {| ARP_TABLE := ARP_TABLE w; pending := pending w; sent := sent w;
     waited := waited w; stdout := stdout w ++ [line] |}.

(** [socket.send(frame)] on an interface that takes the frame: the frame
    is logged.  An interface that refuses a frame ([OSError], as for a
    frame longer than its MTU allows) is not part of this model. *)
Definition socket_send (frame : bytes) (w : World) : World :=
  {| ARP_TABLE := ARP_TABLE w; pending := pending w;
     sent := sent w ++ [frame]; waited := waited w; stdout := stdout w |}.

(** [ARP_TABLE[ip_addr] = mac] *)
Definition arp_table_store (ip_addr mac : bytes) (w : World) : World :=
  {| ARP_TABLE := <[ip_addr := mac]> (ARP_TABLE w); pending := pending w;
     sent := sent w; waited := waited w; stdout := stdout w |}.

(** What a receive loop leaves behind on the wire. *)
Definition after_receive (rx : list (Q * bytes)) (t : Q) (w : World) : World :=
  {| ARP_TABLE := ARP_TABLE w; pending := rx; sent := sent w;
     waited := t; stdout := stdout w |}.

(** ** Waiting for an ARP response

    One iteration of [while True] per pending frame.  [select] rejects a
    negative timeout with [ValueError]; it reports the socket readable after
    [t] when the next frame needs [t <= time_left], and otherwise comes back
    empty after [time_left]. *)
Fixpoint receive_arp_response_loop (sender_ip_addr : bytes)
    (rx : list (Q * bytes)) (time_left elapsed : Q)
    : result (option ArpPacket.t) * list (Q * bytes) * Q :=
  if Qlt_le_dec time_left 0 then (Raise ValueError, rx, elapsed)
  else
    match rx with
    | [] => (Ok None, [], (elapsed + time_left)%Q)
    | (t, data) :: rx' =>
        if Qle_bool t time_left then
          let select_time := t in
          let elapsed := (elapsed + select_time)%Q in
          let frame := decode_ethernet_frame data in
          let found :=
            if bool_decide (EthernetFrame.dst_addr frame = MY_MAC_ADDR)
               && bool_decide (EthernetFrame.ethertype frame = ARP)
            then
              let arp_packet := decode_arp_packet (EthernetFrame.payload frame) in
              if bool_decide (ArpPacket.spa arp_packet = sender_ip_addr)
              then Some arp_packet else None
            else None in
          match found with
          | Some arp_packet => (Ok (Some arp_packet), rx', elapsed)
          | None =>
              let time_left := (time_left - select_time)%Q in
              if Qle_bool time_left 0 then (Ok None, rx', elapsed)
              else receive_arp_response_loop sender_ip_addr rx' time_left elapsed
          end
        else (Ok None, ((t - time_left)%Q, data) :: rx', (elapsed + time_left)%Q)
    end.

Definition receive_arp_response (sender_ip_addr : bytes) (timeout : Q)
    (w : World) : result (option ArpPacket.t) * World :=
  let '(r, rx, t) :=
    receive_arp_response_loop sender_ip_addr (pending w) timeout (waited w) in
  (r, after_receive rx t w).

(** ** The ARP resolver *)

Definition resolve_local_ip_addr (ip_addr : bytes) (w : World)
    : result (option bytes) * World :=
  match ARP_TABLE w !! ip_addr with
  | Some mac => (Ok (Some mac), w)
  | None =>
      let w := print "Opening socket." w in
      let arp_packet := arp_request MY_MAC_ADDR MY_IP_ADDR ip_addr in
      let w :=
        socket_send
          (ethernet_frame BROADCAST_MAC_ADDR MY_MAC_ADDR ARP arp_packet) w in
      let '(response, w) := receive_arp_response ip_addr 1 w in
      match response with
      | Ok (Some response) =>
          let w := arp_table_store ip_addr (ArpPacket.sha response) w in
          (Ok (Some (ArpPacket.sha response)), print "Closing socket." w)
      | Ok None => (Ok None, print "Closing socket." w)
      | Raise e => (Raise e, print "Closing socket." w)
      end
  end.

Definition resolve_ip_addr (ip_addr : bytes) (w : World)
    : result (option bytes) * World :=
  if is_on_same_subnet ip_addr then resolve_local_ip_addr ip_addr w
  else resolve_local_ip_addr ROUTER_IP_ADDR w.

(** ** ICMP echo *)

(** The arguments of [ethernet_frame] are evaluated in the order written:
    the resolver runs first, then the packet is built, and only then does
    [ethernet_frame] concatenate, which is where a [None] destination
    raises [TypeError]. *)
Definition send_echo_request (dst_ip_addr : bytes) (identifier sequence_no : Z)
    (w : World) : result unit * World :=
  let '(dst_addr, w) := resolve_ip_addr dst_ip_addr w in
  match dst_addr with
  | Raise e => (Raise e, w)
  | Ok dst_addr =>
      let payload :=
        icmp <~ icmp_ping_request_packet identifier sequence_no ;;
        ip4_packet MY_IP_ADDR dst_ip_addr 1 icmp in
      match payload with
      | Raise e => (Raise e, w)
      | Ok payload =>
          match dst_addr with
          | None => (Raise TypeError, w)
          | Some dst_addr =>
              (Ok tt, socket_send (ethernet_frame dst_addr MY_MAC_ADDR IPV4 payload) w)
          end
      end
  end.

(** The same loop as [receive_arp_response], with the echo-reply tests;
    here the IPv4 and ICMP decoders index into the frame and may raise. *)
Fixpoint receive_echo_reply_loop (src_ip_addr : bytes)
    (identifier sequence_no : Z)
    (rx : list (Q * bytes)) (time_left elapsed : Q)
    : result (option IcmpPacket.t) * list (Q * bytes) * Q :=
  if Qlt_le_dec time_left 0 then (Raise ValueError, rx, elapsed)
  else
    match rx with
    | [] => (Ok None, [], (elapsed + time_left)%Q)
    | (t, data) :: rx' =>
        if Qle_bool t time_left then
          let select_time := t in
          let elapsed := (elapsed + select_time)%Q in
          let frame := decode_ethernet_frame data in
          let found :=
            if bool_decide (EthernetFrame.dst_addr frame = MY_MAC_ADDR)
               && bool_decide (EthernetFrame.ethertype frame = IPV4)
            then
              ipv4_packet <~ decode_ipv4_packet (EthernetFrame.payload frame) ;;
              if bool_decide (Ipv4Packet.dst_addr ipv4_packet = MY_IP_ADDR)
                 && bool_decide (Ipv4Packet.src_addr ipv4_packet = src_ip_addr)
                 && bool_decide (Ipv4Packet.protocol ipv4_packet = 1)
              then
                icmp_packet <~ decode_icmp_packet (Ipv4Packet.payload ipv4_packet) ;;
                if bool_decide (IcmpPacket.identifier icmp_packet = identifier)
                   && bool_decide (IcmpPacket.sequence_no icmp_packet = sequence_no)
                then Ok (Some icmp_packet) else Ok None
              else Ok None
            else Ok None in
          match found with
          | Raise e => (Raise e, rx', elapsed)
          | Ok (Some icmp_packet) => (Ok (Some icmp_packet), rx', elapsed)
          | Ok None =>
              let time_left := (time_left - select_time)%Q in
              if Qle_bool time_left 0 then (Ok None, rx', elapsed)
              else
                receive_echo_reply_loop src_ip_addr identifier sequence_no
                  rx' time_left elapsed
          end
        else (Ok None, ((t - time_left)%Q, data) :: rx', (elapsed + time_left)%Q)
    end.

Definition receive_echo_reply (src_ip_addr : bytes) (identifier sequence_no : Z)
    (timeout : Q) (w : World) : result (option IcmpPacket.t) * World :=
  let '(r, rx, t) :=
    receive_echo_reply_loop src_ip_addr identifier sequence_no
      (pending w) timeout (waited w) in
  (r, after_receive rx t w).

(** ** Vocabulary of the statements and proofs *)

(** One end-around-carry step of [calculate_checksum]. *)
Definition fold16 (s : Z) : Z := Z.land s 0xFFFF + Z.shiftr s 16.

(** The 16-bit big-endian words of a buffer, by recursion on the buffer; a
    buffer of odd length ends with a word made of its last byte alone. *)
Fixpoint be_words (h : bytes) : list Z :=
  match h with
  | [] => []
  | [a] => [byte_to_Z a]
  | a :: b :: t => (byte_to_Z a * 256 + byte_to_Z b) :: be_words t
  end.

(** An IPv4 address read as one 32-bit integer, most significant byte
    first. *)
Definition ip4_to_Z (ip_addr : bytes) : Z := int_from_bytes ip_addr.

(** The 20 header bytes before the checksum is filled in. *)
Definition ip4_header_unsummed (src_ip_addr dst_ip_addr : bytes) (protocol : Z)
    (payload : bytes) : bytes :=
  let total_length := 20 + Z.of_nat (length payload) in
  [x45; x00; byte_of_Z ((total_length / 256) mod 256);
   byte_of_Z (total_length mod 256); x00; x00; x40; x00; x40;
   byte_of_Z protocol; x00; x00]
  ++ src_ip_addr ++ dst_ip_addr.

(** The 16 bytes of an echo request before its checksum is filled in. *)
Definition icmp_message_unsummed (identifier sequence_no : Z) : bytes :=
  [x08; x00; x00; x00;
   byte_of_Z ((identifier / 256) mod 256); byte_of_Z (identifier mod 256);
   byte_of_Z ((sequence_no / 256) mod 256); byte_of_Z (sequence_no mod 256)]
  ++ list_byte_of_string "Python!!".

(** The test [receive_arp_response] applies to a received frame: the ARP
    packet it returns, if any. *)
Definition arp_response_verdict (sender_ip_addr data : bytes)
    : option ArpPacket.t :=
  let frame := decode_ethernet_frame data in
  if bool_decide (EthernetFrame.dst_addr frame = MY_MAC_ADDR)
     && bool_decide (EthernetFrame.ethertype frame = ARP)
  then
    let arp_packet := decode_arp_packet (EthernetFrame.payload frame) in
    if bool_decide (ArpPacket.spa arp_packet = sender_ip_addr)
    then Some arp_packet else None
  else None.

(** The test [receive_echo_reply] applies to a received frame: the ICMP
    packet it returns, [None] when the frame is passed over, or the
    exception a decoder raises on it. *)
Definition echo_reply_verdict (src_ip_addr : bytes) (identifier sequence_no : Z)
    (data : bytes) : result (option IcmpPacket.t) :=
  let frame := decode_ethernet_frame data in
  if bool_decide (EthernetFrame.dst_addr frame = MY_MAC_ADDR)
     && bool_decide (EthernetFrame.ethertype frame = IPV4)
  then
    ipv4_packet <~ decode_ipv4_packet (EthernetFrame.payload frame) ;;
    if bool_decide (Ipv4Packet.dst_addr ipv4_packet = MY_IP_ADDR)
       && bool_decide (Ipv4Packet.src_addr ipv4_packet = src_ip_addr)
       && bool_decide (Ipv4Packet.protocol ipv4_packet = 1)
    then
      icmp_packet <~ decode_icmp_packet (Ipv4Packet.payload ipv4_packet) ;;
      if bool_decide (IcmpPacket.identifier icmp_packet = identifier)
         && bool_decide (IcmpPacket.sequence_no icmp_packet = sequence_no)
      then Ok (Some icmp_packet) else Ok None
    else Ok None
  else Ok None.

(** The loop both functions share, over an arbitrary per-frame test. *)
Fixpoint wait_loop {A : Type} (test : bytes -> result (option A))
    (rx : list (Q * bytes)) (time_left elapsed : Q)
    : result (option A) * list (Q * bytes) * Q :=
  if Qlt_le_dec time_left 0 then (Raise ValueError, rx, elapsed)
  else
    match rx with
    | [] => (Ok None, [], (elapsed + time_left)%Q)
    | (t, data) :: rx' =>
        if Qle_bool t time_left then
          match test data with
          | Raise e => (Raise e, rx', (elapsed + t)%Q)
          | Ok (Some a) => (Ok (Some a), rx', (elapsed + t)%Q)
          | Ok None =>
              if Qle_bool (time_left - t) 0 then (Ok None, rx', (elapsed + t)%Q)
              else wait_loop test rx' (time_left - t)%Q (elapsed + t)%Q
          end
        else (Ok None, ((t - time_left)%Q, data) :: rx', (elapsed + time_left)%Q)
    end.

(** A transport that need not fall silent.  [frames k] is the [k]-th frame
    to arrive, counting from 0, with the time it takes to become readable
    once [select] is waiting for it; [None] when no further frame ever
    arrives. *)
Definition transport : Type := nat -> option (Q * bytes).


(** The same loop on a transport, from its [k]-th frame on, run for at
    most [fuel] iterations of [while True].  [None]: the loop is still
    running after [fuel] iterations.  Otherwise the result comes with the
    number of frames received from the transport and the time spent in
    [select]. *)
Fixpoint wait_run {A : Type} (test : bytes -> result (option A))
    (frames : transport) (fuel k : nat) (time_left elapsed : Q)
    : option (result (option A) * nat * Q) :=
  match fuel with
  | O => None
  | S fuel' =>
      if Qlt_le_dec time_left 0 then Some (Raise ValueError, k, elapsed)
      else
        match frames k with
        | None => Some (Ok None, k, (elapsed + time_left)%Q)
        | Some (t, data) =>
            if Qle_bool t time_left then
              match test data with
              | Raise e => Some (Raise e, S k, (elapsed + t)%Q)
              | Ok (Some a) => Some (Ok (Some a), S k, (elapsed + t)%Q)
              | Ok None =>
                  if Qle_bool (time_left - t) 0
                  then Some (Ok None, S k, (elapsed + t)%Q)
                  else wait_run test frames fuel' (S k)
                         (time_left - t)%Q (elapsed + t)%Q
              end
            else Some (Ok None, k, (elapsed + time_left)%Q)
        end
  end.

(** The address [resolve_ip_addr] hands to [resolve_local_ip_addr]. *)
Definition next_hop (ip_addr : bytes) : bytes :=
  if is_on_same_subnet ip_addr then ip_addr else ROUTER_IP_ADDR.

(** The frame a resolution broadcasts on a table miss. *)
Definition arp_broadcast (ip_addr : bytes) : bytes :=
  ethernet_frame BROADCAST_MAC_ADDR MY_MAC_ADDR ARP
    (arp_request MY_MAC_ADDR MY_IP_ADDR ip_addr).

(** ** Sample worlds *)

(** Nothing in the table, nothing on the wire. *)
Definition quiet_world : World :=
  {| ARP_TABLE := ∅; pending := []; sent := []; waited := 0%Q; stdout := [] |}.

(** The router's ARP reply as the notebook received it: from
    00:1f:16:f8:37:86 at 192.168.1.1 to 1c:87:2c:46:e0:47 at
    192.168.1.250. *)
Definition router_arp_reply : bytes :=
  expect []
    (bytes_fromhex
       "1c872c46e047 001f16f83786 0806 0001 0800 06 04 0002 001f16f83786 c0a80101 1c872c46e047 c0a801fa").

(** A world in which that reply is the next frame, 2 ms away. *)
Definition router_answers : World :=
  {| ARP_TABLE := ∅; pending := [((2 # 1000)%Q, router_arp_reply)];
     sent := []; waited := 0%Q; stdout := [] |}.



(** The world after the router has answered the first resolution of
    192.168.1.1. *)
Definition router_resolved : World :=
  (resolve_ip_addr ROUTER_IP_ADDR router_answers).2.

(** ** Address formatting *)

(** [sep.join(parts)] on character lists. *)
Fixpoint join_chars (sep : list ascii) (parts : list (list ascii)) : list ascii :=
  match parts with
  | [] => []
  | p :: ps =>
      match ps with
      | [] => p
      | _ :: _ => p ++ sep ++ join_chars sep ps
      end
  end.

(** The lowercase hexadecimal digit for [0 <= d < 16]. *)
Definition hex_char (d : Z) : ascii :=
  ascii_of_nat (Z.to_nat (if decide (d < 10) then 48 + d else 87 + d)).

(** [f"{byte:02x}"] for an element of a byte string. *)
Definition format_02x (b : byte) : list ascii :=
  [hex_char (byte_to_Z b / 16); hex_char (byte_to_Z b mod 16)].

Definition format_mac_addr (mac_address : bytes) : string :=
  string_of_list_ascii (join_chars [":"%char] (format_02x <$> mac_address)).

(** The decimal digit for [0 <= d < 10]. *)
Definition digit_char (d : Z) : ascii := ascii_of_nat (Z.to_nat (48 + d)).

(** [f"{byte:d}"] for an element of a byte string: one to three digits,
    no leading zero. *)
Definition format_d (b : byte) : list ascii :=
  let n := byte_to_Z b in
  if decide (n < 10) then [digit_char n]
  else if decide (n < 100) then [digit_char (n / 10); digit_char (n mod 10)]
  else [digit_char (n / 100); digit_char ((n / 10) mod 10); digit_char (n mod 10)].

Definition decode_ip4_addr (ip4_addr : bytes) : string :=
  string_of_list_ascii (join_chars ["."%char] (format_d <$> ip4_addr)).

(** ** A sample exchange with the router *)

(** 00:1f:16:f8:37:86, the router of the notebook's network. *)
Definition router_mac_addr : bytes :=
  expect [] (encode_mac_addr "00:1f:16:f8:37:86").

(** The echo reply the notebook prints: type 0, code 0, checksum [aa 8c],
    identifier 1, sequence number 1, payload "Python!!". *)
Definition router_icmp_reply : bytes :=
  expect [] (bytes_fromhex "00 00 aa8c 0001 0001")
    ++ list_byte_of_string "Python!!".

(** That reply in an IPv4 packet from 192.168.1.1 to 192.168.1.250, in an
    Ethernet frame from the router, padded with 10 zero bytes to the
    minimum frame size. *)
Definition router_echo_reply : bytes :=
  ethernet_frame MY_MAC_ADDR router_mac_addr IPV4
    (expect [] (ip4_packet ROUTER_IP_ADDR MY_IP_ADDR 1 router_icmp_reply)
       ++ replicate 10 x00).

(** A world in which the router answers an ARP request after 2 ms and an
    echo request after half a millisecond, with this host's own ARP
    broadcast and an IPv6 frame seen in between. *)
Definition router_replies : World :=
  {| ARP_TABLE := ∅;
     pending :=
       [((2 # 1000)%Q, router_arp_reply);
        ((1 # 10000)%Q,
          ethernet_frame BROADCAST_MAC_ADDR MY_MAC_ADDR ARP
            (arp_request MY_MAC_ADDR MY_IP_ADDR ROUTER_IP_ADDR));
        ((1 # 10000)%Q,
          ethernet_frame MY_MAC_ADDR router_mac_addr IPV6
            (list_byte_of_string "not for this stack"));
        ((3 # 10000)%Q, router_echo_reply)];
     sent := []; waited := 0%Q; stdout := [] |}.

(** ** Traffic that is not for the receive loops *)

(** An IPv6 frame from the router to this host. *)
Definition ipv6_frame : bytes :=
  ethernet_frame MY_MAC_ADDR router_mac_addr IPV6
    (list_byte_of_string "not for this stack").


(** A world in which the router's ARP reply arrives after those two
    frames. *)
Definition router_answers_late : World :=
  {| ARP_TABLE := ∅;
     pending :=
       [((1 # 10000)%Q, arp_broadcast ROUTER_IP_ADDR);
        ((1 # 10000)%Q, ipv6_frame);
        ((2 # 1000)%Q, router_arp_reply)];
     sent := []; waited := 0%Q; stdout := [] |}.


(** A transport on which [select] never has to wait: the next IPv6 frame
    is always there already. *)
Definition back_to_back_traffic : transport :=
  fun _ => Some (0%Q, ipv6_frame).

(** * Theorems *)

(** ** Module-level constants *)

Example MY_MAC_ADDR_bytes : MY_MAC_ADDR = [x1c; x87; x2c; x46; xe0; x47].
Proof. reflexivity. Qed.

Example MY_IP_ADDR_bytes : MY_IP_ADDR = [xc0; xa8; x01; xfa].
Proof. reflexivity. Qed.

Example SUBNET_MASK_bytes : SUBNET_MASK = [xff; xff; xff; x00].
Proof. reflexivity. Qed.

Example ROUTER_IP_ADDR_bytes : ROUTER_IP_ADDR = [xc0; xa8; x01; x01].
Proof. reflexivity. Qed.

Example ARP_bytes : ARP = [x08; x06].
Proof. reflexivity. Qed.

Example IPV4_bytes : IPV4 = [x08; x00].
Proof. reflexivity. Qed.

Example BROADCAST_MAC_ADDR_bytes :
  BROADCAST_MAC_ADDR = [xff; xff; xff; xff; xff; xff].
Proof. reflexivity. Qed.

(** The cells of the notebook that show a value. *)
Example encode_mac_addr_cell :
  encode_mac_addr "01:02:03:04:05:06" = Ok [x01; x02; x03; x04; x05; x06].
Proof. reflexivity. Qed.

Example encode_ip4_addr_cell :
  encode_ip4_addr "10.0.0.254" = Ok [x0a; x00; x00; xfe].
Proof. reflexivity. Qed.

(** The spellings [int] accepts besides plain digits, and some it does
    not. *)
Example int_of_str_spellings :
  int_of_str (list_ascii_of_string " 12 ") = Ok 12
  /\ int_of_str (list_ascii_of_string "+7") = Ok 7
  /\ int_of_str (list_ascii_of_string "-7") = Ok (-7)
  /\ int_of_str (list_ascii_of_string "010") = Ok 10
  /\ int_of_str (list_ascii_of_string "1_0") = Ok 10
  /\ int_of_str (list_ascii_of_string "1__0") = Raise ValueError
  /\ int_of_str (list_ascii_of_string "_1") = Raise ValueError
  /\ int_of_str (list_ascii_of_string "1_") = Raise ValueError
  /\ int_of_str (list_ascii_of_string "+ 1") = Raise ValueError
  /\ int_of_str (list_ascii_of_string "0x10") = Raise ValueError
  /\ int_of_str (list_ascii_of_string "") = Raise ValueError.
Proof. repeat split. Qed.

Example encode_ip4_addr_spellings :
  encode_ip4_addr " 10.0.0.1" = Ok [x0a; x00; x00; x01]
  /\ encode_ip4_addr "1_0.+0.0.1" = Ok [x0a; x00; x00; x01]
  /\ encode_ip4_addr "10.0.0" = Ok [x0a; x00; x00]
  /\ encode_ip4_addr "256.0.0.1" = Raise ValueError
  /\ encode_ip4_addr "-1.0.0.1" = Raise ValueError
  /\ encode_ip4_addr "10..0.1" = Raise ValueError
  /\ encode_ip4_addr "" = Raise ValueError.
Proof. repeat split. Qed.

Example is_on_same_subnet_cells :
  is_on_same_subnet [xc0; xa8; x01; x36] = true
  /\ is_on_same_subnet [x08; x08; x08; x08] = false.
Proof. split; reflexivity. Qed.

(** The echo reply printed by the notebook carries the checksum [aa 8c];
    that is [calculate_checksum] of the reply with its checksum field
    zeroed. *)
Example echo_reply_checksum_cell :
  calculate_checksum
    (expect [] (bytes_fromhex "0000 0000 0001 0001")
       ++ list_byte_of_string "Python!!")
  = 0xAA8C.
Proof. reflexivity. Qed.

(** ** Bytes and integers *)

Lemma byte_to_Z_range (b : byte) : 0 <= byte_to_Z b < 256.
Proof.
  unfold byte_to_Z. pose proof (Byte.to_N_bounded b). lia.
Qed.

Lemma byte_to_of_Z (z : Z) : 0 <= z < 256 -> byte_to_Z (byte_of_Z z) = z.
Proof.
  intros Hz. unfold byte_to_Z, byte_of_Z.
  destruct (Byte.of_N (Z.to_N z)) as [b|] eqn:E.
  - apply Byte.to_of_N in E. lia.
  - apply Byte.of_N_None_iff in E. lia.
Qed.

Lemma byte_of_to_Z (b : byte) : byte_of_Z (byte_to_Z b) = b.
Proof.
  unfold byte_to_Z, byte_of_Z. rewrite N2Z.id, Byte.of_to_N. reflexivity.
Qed.

Lemma int_to_bytes_2 (n : Z) :
  0 <= n < 65536 ->
  int_to_bytes 2 n = Ok [byte_of_Z ((n / 256) mod 256); byte_of_Z (n mod 256)].
Proof.
  intros Hn. unfold int_to_bytes.
  destruct (decide _) as [_|Hno]; [reflexivity|].
  exfalso. apply Hno. change (256 ^ Z.of_nat 2) with 65536. exact Hn.
Qed.

Lemma int_to_bytes_2_overflow (n : Z) :
  ~ 0 <= n < 65536 -> int_to_bytes 2 n = Raise OverflowError.
Proof.
  intros Hn. unfold int_to_bytes.
  destruct (decide _) as [Hyes|_]; [|reflexivity].
  exfalso. apply Hn. exact Hyes.
Qed.

Lemma int_from_bytes_2 (a b : byte) :
  int_from_bytes [a; b] = byte_to_Z a * 256 + byte_to_Z b.
Proof. unfold int_from_bytes. simpl. lia. Qed.

Lemma int_from_to_bytes_2 (n : Z) :
  0 <= n < 65536 ->
  int_from_bytes [byte_of_Z ((n / 256) mod 256); byte_of_Z (n mod 256)] = n.
Proof.
  intros Hn. rewrite int_from_bytes_2.
  rewrite !byte_to_of_Z by (apply Z.mod_pos_bound; lia).
  rewrite (Z.mod_small (n / 256)).
  - pose proof (Z.div_mod n 256). lia.
  - split; [apply Z.div_pos; lia | apply Z.div_lt_upper_bound; lia].
Qed.

(** ** The words summed by the checksum *)

Lemma range_by_2_SS (n : nat) :
  range_by_2 (S (S n)) = O :: ((fun i => i + 2)%nat <$> range_by_2 n).
Proof.
  unfold range_by_2.
  replace (S (S n) + 1)%nat with (S (S (n + 1))) by lia.
  cbn [Nat.div2]. rewrite <- cons_seq, <- fmap_S_seq. cbn [fmap list_fmap].
  f_equal. rewrite <- !list_fmap_compose. apply list_fmap_ext.
  intros _ k _. simpl. lia.
Qed.

Lemma checksum_words (h : bytes) :
  (fun i => int_from_bytes (slice i (i + 2) h)) <$> range_by_2 (length h)
  = be_words h.
Proof.
  induction h as [h IH] using (induction_ltof1 _ (@length byte)).
  unfold ltof in IH.
  destruct h as [|a [|b t]].
  - reflexivity.
  - cbn. unfold int_from_bytes. simpl. reflexivity.
  - cbn [length]. rewrite range_by_2_SS. cbn [fmap list_fmap be_words].
    f_equal.
    rewrite <- IH by (simpl; lia).
    rewrite <- list_fmap_compose. apply list_fmap_ext.
    intros _ i _. cbn [compose]. unfold slice.
    replace (i + 2)%nat with (S (S i)) by lia. cbn [drop].
    do 2 f_equal. lia.
Qed.

Lemma calculate_checksum_words (h : bytes) :
  calculate_checksum h
  = Z.land (Z.lnot (fold16 (fold16 (sum_Z (be_words h))))) 0xFFFF.
Proof.
  unfold calculate_checksum. cbv zeta. rewrite checksum_words. reflexivity.
Qed.

Lemma be_words_app (a b : bytes) :
  Nat.Even (length a) -> be_words (a ++ b) = be_words a ++ be_words b.
Proof.
  induction a as [a IH] using (induction_ltof1 _ (@length byte)).
  unfold ltof in IH. intros Ha.
  destruct a as [|x [|y t]].
  - reflexivity.
  - exfalso. destruct Ha as [k Hk]. simpl in Hk. lia.
  - cbn [app be_words]. f_equal. apply IH; [simpl; lia|].
    destruct Ha as [k Hk]. exists (k - 1)%nat. simpl in Hk. lia.
Qed.

Lemma sum_Z_app (l1 l2 : list Z) : sum_Z (l1 ++ l2) = sum_Z l1 + sum_Z l2.
Proof. induction l1 as [|x l1 IH]; simpl; [reflexivity|]. unfold sum_Z in *. simpl. lia. Qed.

Lemma sum_words_bounds (h : bytes) :
  0 <= sum_Z (be_words h) /\
  2 * sum_Z (be_words h) <= 65535 * (Z.of_nat (length h) + 1).
Proof.
  induction h as [h IH] using (induction_ltof1 _ (@length byte)).
  unfold ltof in IH.
  destruct h as [|a [|b t]].
  - cbn. lia.
  - cbn. pose proof (byte_to_Z_range a). lia.
  - specialize (IH t ltac:(simpl; lia)).
    cbn [be_words length]. unfold sum_Z in *. cbn [foldr].
    pose proof (byte_to_Z_range a). pose proof (byte_to_Z_range b). lia.
Qed.

(** ** End-around carry *)

Lemma fold16_div_mod (s : Z) : fold16 s = s mod 65536 + s / 65536.
Proof.
  unfold fold16. change 0xFFFF with (Z.ones 16).
  rewrite Z.land_ones, Z.shiftr_div_pow2 by lia. reflexivity.
Qed.

(** Two folds bring any sum below [2 ^ 32] into 16 bits, keep its residue
    modulo [65535], and keep a positive sum positive. *)
Lemma fold16_twice (s : Z) :
  0 <= s < 2 ^ 32 ->
  0 <= fold16 (fold16 s) <= 65535
  /\ (exists k, 0 <= k /\ s = fold16 (fold16 s) + 65535 * k)
  /\ (0 < s -> 0 < fold16 (fold16 s)).
Proof.
  intros Hs. rewrite !fold16_div_mod.
  change (2 ^ 32) with 4294967296 in Hs.
  pose proof (Z.div_mod s 65536 ltac:(lia)) as E1.
  pose proof (Z.mod_pos_bound s 65536 ltac:(lia)) as B1.
  set (q := s / 65536) in *. set (r := s mod 65536) in *.
  pose proof (Z.div_mod (r + q) 65536 ltac:(lia)) as E2.
  pose proof (Z.mod_pos_bound (r + q) 65536 ltac:(lia)) as B2.
  set (q' := (r + q) / 65536) in *. set (r' := (r + q) mod 65536) in *.
  assert (0 <= q < 65536) by lia.
  assert (0 <= q' <= 1) by lia.
  split; [lia|]. split; [exists (q + q'); lia | lia].
Qed.

Lemma lnot_mask16 (x : Z) :
  0 <= x <= 65535 -> Z.land (Z.lnot x) 0xFFFF = 65535 - x.
Proof.
  intros Hx.
  change (Z.land (Z.lnot x) 0xFFFF) with (Z.land (Z.lnot x) (Z.ones 16)).
  rewrite Z.land_ones by lia.
  replace (Z.lnot x) with ((65535 - x) + (-1) * 2 ^ 16)
    by (unfold Z.lnot, Z.pred; lia).
  rewrite Z.mod_add by lia. apply Z.mod_small. lia.
Qed.

Lemma sum_words_lt_2_32 (h : bytes) :
  Z.of_nat (length h) <= 131072 -> 0 <= sum_Z (be_words h) < 2 ^ 32.
Proof.
  intros Hlen. pose proof (sum_words_bounds h) as [H0 H1].
  change (2 ^ 32) with 4294967296. lia.
Qed.

Lemma calculate_checksum_range (h : bytes) :
  Z.of_nat (length h) <= 131072 -> 0 <= calculate_checksum h < 65536.
Proof.
  intros Hlen. rewrite calculate_checksum_words.
  destruct (fold16_twice _ (sum_words_lt_2_32 h Hlen)) as (Hf & _ & _).
  rewrite lnot_mask16 by exact Hf. lia.
Qed.

(** ** A word-aligned field inside a buffer *)

Lemma length_setslice_2 (j : nat) (v h : bytes) :
  (2 * j + 2 <= length h)%nat -> length v = 2%nat ->
  length (setslice (2 * j) (2 * j + 2) v h) = length h.
Proof.
  intros Hj Hv. unfold setslice.
  rewrite !length_app, length_take, length_drop, Hv. lia.
Qed.

Lemma sum_words_setslice (j : nat) (x y : byte) (h : bytes) :
  (2 * j + 2 <= length h)%nat ->
  sum_Z (be_words (setslice (2 * j) (2 * j + 2) [x; y] h))
  = sum_Z (be_words (take (2 * j) h))
    + (byte_to_Z x * 256 + byte_to_Z y)
    + sum_Z (be_words (drop (2 * j + 2) h)).
Proof.
  intros Hj. unfold setslice.
  replace (Nat.max (2 * j) (2 * j + 2)) with (2 * j + 2)%nat by lia.
  rewrite be_words_app.
  - rewrite sum_Z_app. cbn [app be_words]. unfold sum_Z at 2. cbn [foldr].
    fold (sum_Z (be_words (drop (2 * j + 2) h))). lia.
  - exists j. rewrite length_take. lia.
Qed.

(** ** The lone last byte of an odd-length buffer *)

Lemma be_words_snoc (b : bytes) (x : byte) :
  Nat.Even (length b) -> be_words (b ++ [x]) = be_words b ++ [byte_to_Z x].
Proof. intros Hb. rewrite be_words_app by exact Hb. reflexivity. Qed.

(** C9 (as the code has it): on an odd-length buffer the last byte is
    summed as a word of its own, that is as the LOW-order byte of a word
    whose high byte is zero: the checksum of [b ++ [x]] is the checksum of
    [b ++ [0; x]] for every even-length [b]. *)
Theorem checksum_odd_length_lone_byte_is_low_order (b : bytes) (x : byte) :
  Nat.Even (length b) ->
  calculate_checksum (b ++ [x]) = calculate_checksum (b ++ [x00; x]).
Proof.
  intros Hb. rewrite !calculate_checksum_words.
  rewrite !be_words_app by exact Hb. reflexivity.
Qed.

Lemma checksum_odd_length_lone_byte_is_low_order_witness :
  Nat.Even (length [x12; x34])
  /\ calculate_checksum ([x12; x34] ++ [x56])
     = calculate_checksum ([x12; x34] ++ [x00; x56]).
Proof.
  assert (He : Nat.Even (length [x12; x34])) by (exists 1%nat; reflexivity).
  split; [exact He|].
  apply (checksum_odd_length_lone_byte_is_low_order [x12; x34] x56 He).
Defined.

(** C9 (as the spec states it) fails: for the one-byte buffer [01] the
    code returns [0xFFFE], while the zero-padded buffer [01 00] gives
    [0xFEFF]. *)
Lemma checksum_odd_length_not_zero_padded :
  Nat.Odd (length [x01])
  /\ calculate_checksum [x01] = 0xFFFE
  /\ calculate_checksum ([x01] ++ [x00]) = 0xFEFF
  /\ calculate_checksum [x01] <> calculate_checksum ([x01] ++ [x00]).
Proof.
  split; [exists 0%nat; reflexivity|].
  split; [reflexivity|]. split; [reflexivity|].
  vm_compute. discriminate.
Qed.

(** ** Verifying an embedded checksum *)

Lemma checksum_embedded_field (h : bytes) (j : nat) :
  Z.of_nat (length h) <= 131072 ->
  (2 * j + 2 <= length h)%nat ->
  exists field,
    int_to_bytes 2
      (calculate_checksum (setslice (2 * j) (2 * j + 2) [x00; x00] h))
    = Ok field
    /\ length field = 2%nat
    /\ calculate_checksum (setslice (2 * j) (2 * j + 2) field h) = 0.
Proof.
  intros Hlen Hj.
  set (h0 := setslice (2 * j) (2 * j + 2) [x00; x00] h).
  assert (Hlen0 : Z.of_nat (length h0) <= 131072)
    by (unfold h0; rewrite length_setslice_2; [exact Hlen | exact Hj | reflexivity]).
  pose proof (calculate_checksum_range h0 Hlen0) as Hc.
  set (c := calculate_checksum h0) in *.
  eexists. split; [apply int_to_bytes_2; exact Hc|]. split; [reflexivity|].
  set (h1 := setslice _ _ _ h).
  assert (Hlen1 : Z.of_nat (length h1) <= 131072)
    by (unfold h1; rewrite length_setslice_2; [exact Hlen | exact Hj | reflexivity]).
  assert (Hsum : sum_Z (be_words h1) = sum_Z (be_words h0) + c).
  { unfold h1, h0. rewrite !sum_words_setslice by exact Hj.
    rewrite <- int_from_bytes_2, int_from_to_bytes_2 by exact Hc.
    change (byte_to_Z x00) with 0. lia. }
  assert (Hcdef : c = 65535 - fold16 (fold16 (sum_Z (be_words h0)))).
  { unfold c. rewrite calculate_checksum_words.
    apply lnot_mask16.
    apply (fold16_twice _ (sum_words_lt_2_32 h0 Hlen0)). }
  destruct (fold16_twice _ (sum_words_lt_2_32 h0 Hlen0)) as (Hf0 & (k0 & Hk0pos & Hk0) & Hp0).
  pose proof (sum_words_lt_2_32 h1 Hlen1) as Hs1.
  destruct (fold16_twice _ Hs1) as (Hf1 & (k1 & Hk1pos & Hk1) & Hp1).
  pose proof (sum_words_lt_2_32 h0 Hlen0) as Hs0.
  rewrite calculate_checksum_words, lnot_mask16 by exact Hf1.
  assert (0 < sum_Z (be_words h1)) by lia.
  specialize (Hp1 ltac:(assumption)).
  lia.
Qed.

(** ** The header written by [ip4_packet] *)

Lemma ip4_packet_ok (src_ip_addr dst_ip_addr : bytes) (protocol : Z)
    (payload : bytes) :
  length src_ip_addr = 4%nat -> length dst_ip_addr = 4%nat ->
  0 <= protocol < 256 ->
  Z.of_nat (length payload) <= 65515 ->
  let header := ip4_header_unsummed src_ip_addr dst_ip_addr protocol payload in
  ip4_packet src_ip_addr dst_ip_addr protocol payload
  = Ok (setslice 10 12
          [byte_of_Z ((calculate_checksum header / 256) mod 256);
           byte_of_Z (calculate_checksum header mod 256)] header
        ++ payload).
Proof.
  intros Hs Hd Hp Hn header.
  destruct src_ip_addr as [|s0 [|s1 [|s2 [|s3 [|]]]]]; try discriminate Hs.
  destruct dst_ip_addr as [|d0 [|d1 [|d2 [|d3 [|]]]]]; try discriminate Hd.
  unfold ip4_packet. cbv zeta.
  change (bytearray (Z.to_nat (5 * 4))) with (replicate 20 x00).
  change (setitem 0 (Z.shiftl 4 4 + 5) (replicate 20 x00))
    with (Ok (x45 :: replicate 19 x00)).
  cbn [rbind].
  change (setitem 1 (Z.shiftl 0 2 + 0) (x45 :: replicate 19 x00))
    with (Ok (x45 :: replicate 19 x00)).
  cbn [rbind].
  change (5 * 4 + Z.of_nat (length payload)) with (20 + Z.of_nat (length payload)).
  rewrite (int_to_bytes_2 (20 + _)) by lia. cbn [rbind].
  change (int_to_bytes 2 0) with (Ok [x00; x00]). cbn [rbind].
  change (int_to_bytes 2 (Z.shiftl 2 13 + 0)) with (Ok [x40; x00]). cbn [rbind].
  set (hi := byte_of_Z _). set (lo := byte_of_Z _).
  change (setslice 6 8 [x40; x00]
            (setslice 4 6 [x00; x00]
               (setslice 2 4 [hi; lo] (x45 :: replicate 19 x00))))
    with ([x45; x00; hi; lo; x00; x00; x40; x00] ++ replicate 12 x00).
  change (setitem 8 64 ([x45; x00; hi; lo; x00; x00; x40; x00] ++ replicate 12 x00))
    with (Ok ([x45; x00; hi; lo; x00; x00; x40; x00; x40] ++ replicate 11 x00)).
  cbn [rbind].
  unfold setitem at 1. cbn [length app replicate].
  destruct (decide (9 < 20)%nat) as [_|Hno]; [|exfalso; lia].
  destruct (decide (0 <= protocol < 256)) as [_|Hno]; [|exfalso; lia].
  cbn [rbind].
  change (ip4_header_unsummed [s0; s1; s2; s3] [d0; d1; d2; d3] protocol payload)
    with [x45; x00; hi; lo; x00; x00; x40; x00; x40; byte_of_Z protocol;
          x00; x00; s0; s1; s2; s3; d0; d1; d2; d3] in header.
  change (setslice 16 20 [d0; d1; d2; d3] (setslice 12 16 [s0; s1; s2; s3] _))
    with header.
  rewrite (int_to_bytes_2 (calculate_checksum header)). 
  - reflexivity.
  - apply calculate_checksum_range. subst header. simpl. lia.
Qed.

Lemma calculate_checksum_16_bits (h : bytes) : 0 <= calculate_checksum h < 65536.
Proof.
  unfold calculate_checksum. cbv zeta.
  match goal with
  | |- _ <= Z.land ?x _ < _ =>
      change (Z.land x 0xFFFF) with (Z.land x (Z.ones 16));
      rewrite (Z.land_ones x 16) by lia
  end.
  apply Z.mod_pos_bound. lia.
Qed.

Lemma ip4_packet_steps (src_ip_addr dst_ip_addr : bytes) (protocol : Z)
    (payload : bytes) :
  ip4_packet src_ip_addr dst_ip_addr protocol payload
  = (v <~ int_to_bytes 2 (20 + Z.of_nat (length payload)) ;;
     header <~ setitem 9 protocol
                 ([x45; x00] ++ v ++ [x00; x00; x40; x00; x40]
                    ++ replicate 11 x00) ;;
     let header := setslice 16 20 dst_ip_addr
                     (setslice 12 16 src_ip_addr header) in
     v <~ int_to_bytes 2 (calculate_checksum header) ;;
     Ok (setslice 10 12 v header ++ payload)).
Proof.
  unfold ip4_packet. cbv zeta.
  change (bytearray (Z.to_nat (5 * 4))) with (replicate 20 x00).
  change (setitem 0 (Z.shiftl 4 4 + 5) (replicate 20 x00))
    with (Ok (x45 :: replicate 19 x00)).
  cbn [rbind].
  change (setitem 1 (Z.shiftl 0 2 + 0) (x45 :: replicate 19 x00))
    with (Ok (x45 :: replicate 19 x00)).
  cbn [rbind].
  change (5 * 4 + Z.of_nat (length payload)) with (20 + Z.of_nat (length payload)).
  destruct (decide (0 <= 20 + Z.of_nat (length payload) < 65536)) as [Hfit|Hbig].
  - rewrite (int_to_bytes_2 _ Hfit). cbn [rbind].
    change (int_to_bytes 2 0) with (Ok [x00; x00]). cbn [rbind].
    change (int_to_bytes 2 (Z.shiftl 2 13 + 0)) with (Ok [x40; x00]). cbn [rbind].
    set (hi := byte_of_Z _). set (lo := byte_of_Z _).
    change (setslice 6 8 [x40; x00]
              (setslice 4 6 [x00; x00]
                 (setslice 2 4 [hi; lo] (x45 :: replicate 19 x00))))
      with ([x45; x00; hi; lo; x00; x00; x40; x00] ++ replicate 12 x00).
    change (setitem 8 64 ([x45; x00; hi; lo; x00; x00; x40; x00] ++ replicate 12 x00))
      with (Ok ([x45; x00; hi; lo; x00; x00; x40; x00; x40] ++ replicate 11 x00)).
    cbn [rbind]. reflexivity.
  - rewrite (int_to_bytes_2_overflow _ Hbig). reflexivity.
Qed.

(** Whatever the lengths of the two addresses, the checksum is computed
    over a header whose bytes 10 and 11 are still zero, and written there:
    when the header comes out 20 bytes long, it verifies. *)
Lemma ip4_packet_header_verifies (src_ip_addr dst_ip_addr : bytes)
    (protocol : Z) (payload packet : bytes) :
  ip4_packet src_ip_addr dst_ip_addr protocol payload = Ok packet ->
  length packet = (20 + length payload)%nat ->
  drop 20 packet = payload /\ calculate_checksum (take 20 packet) = 0.
Proof.
  rewrite ip4_packet_steps. intros Hpacket Hlen.
  destruct (decide (0 <= 20 + Z.of_nat (length payload) < 65536))
    as [Hfit|Hbig];
    [|rewrite (int_to_bytes_2_overflow _ Hbig) in Hpacket; discriminate Hpacket].
  rewrite (int_to_bytes_2 _ Hfit) in Hpacket. cbn [rbind] in Hpacket.
  unfold setitem in Hpacket at 1. cbn [length app replicate] in Hpacket.
  destruct (decide (9 < 20)%nat) as [_|Hno]; [|exfalso; lia].
  destruct (decide (0 <= protocol < 256)) as [Hp|Hp];
    [|discriminate Hpacket].
  cbn [rbind] in Hpacket. cbv zeta in Hpacket.
  rewrite int_to_bytes_2 in Hpacket by apply calculate_checksum_16_bits.
  cbn [rbind] in Hpacket.
  set (header := setslice 16 20 dst_ip_addr (setslice 12 16 src_ip_addr _))
    in *.
  set (field := [byte_of_Z ((calculate_checksum header / 256) mod 256);
                 byte_of_Z (calculate_checksum header mod 256)]) in *.
  assert (Hpk : packet = setslice 10 12 field header ++ payload)
    by congruence.
  clear Hpacket. subst packet.
  assert (Hzero : setslice (2 * 5) (2 * 5 + 2) [x00; x00] header = header).
  { unfold header, setslice. reflexivity. }
  assert (Hmin : (2 * 5 + 2 <= length header)%nat).
  { unfold header, setslice.
    rewrite !length_app, !length_take, !length_drop, !length_app,
      !length_take, !length_drop, !length_insert. cbn [length]. lia. }
  assert (Hfield : length field = 2%nat) by reflexivity.
  pose proof (length_setslice_2 5 field header Hmin Hfield) as Hsame.
  change (2 * 5)%nat with 10%nat in Hsame.
  change (10 + 2)%nat with 12%nat in Hsame.
  assert (Hl : length (setslice 10 12 field header) = 20%nat).
  { rewrite length_app in Hlen. lia. }
  rewrite take_app_length' by (symmetry; exact Hl).
  rewrite drop_app_length' by (symmetry; exact Hl).
  split; [reflexivity|].
  destruct (checksum_embedded_field header 5) as (field' & Hf & _ & Hz);
    [lia | exact Hmin |].
  rewrite Hzero in Hf.
  rewrite int_to_bytes_2 in Hf by apply calculate_checksum_16_bits.
  injection Hf as <-. exact Hz.
Qed.

(** C2 (as the code has it): when the checksum of a buffer, computed with
    its 2-byte checksum field zeroed, is written big-endian into that
    field, the checksum of the resulting buffer is 0, provided the field
    starts at an even byte offset, that is, provided it is one of the
    16-bit words the checksum sums.  This holds for every even-length
    buffer of at most 128 KiB, the field being the [j]-th 16-bit word, and
    in particular for the 20-byte header of every packet [ip4_packet]
    builds: it builds one from 4-byte addresses, a protocol number that
    fits a byte and a payload that fits the 16-bit total length, and
    whenever it returns a packet that is 20 bytes longer than the
    payload, the first 20 bytes verify. *)
Theorem embedded_checksum_verifies_to_zero :
  (forall (h : bytes) (j : nat),
      Nat.Even (length h) ->
      Z.of_nat (length h) <= 128 * 1024 ->
      (2 * j + 2 <= length h)%nat ->
      exists field,
        int_to_bytes 2
          (calculate_checksum (setslice (2 * j) (2 * j + 2) [x00; x00] h))
        = Ok field
        /\ calculate_checksum (setslice (2 * j) (2 * j + 2) field h) = 0)
  /\ (forall (src_ip_addr dst_ip_addr : bytes) (protocol : Z) (payload : bytes),
         length src_ip_addr = 4%nat ->
         length dst_ip_addr = 4%nat ->
         0 <= protocol < 256 ->
         Z.of_nat (length payload) <= 65515 ->
         exists packet,
           ip4_packet src_ip_addr dst_ip_addr protocol payload = Ok packet
           /\ length (take 20 packet) = 20%nat
           /\ drop 20 packet = payload
           /\ calculate_checksum (take 20 packet) = 0)
  /\ (forall (src_ip_addr dst_ip_addr : bytes) (protocol : Z)
             (payload packet : bytes),
         ip4_packet src_ip_addr dst_ip_addr protocol payload = Ok packet ->
         length packet = (20 + length payload)%nat ->
         drop 20 packet = payload
         /\ calculate_checksum (take 20 packet) = 0).
Proof.
  split; [|split].
  3:{ exact ip4_packet_header_verifies. }
  - intros h j _ Hlen Hj.
    destruct (checksum_embedded_field h j Hlen Hj) as (field & Hf & _ & Hz).
    exists field. split; assumption.
  - intros src dst protocol payload Hs Hd Hp Hn.
    rewrite (ip4_packet_ok src dst protocol payload Hs Hd Hp Hn). cbv zeta.
    set (header := ip4_header_unsummed src dst protocol payload).
    assert (Hlen : length header = 20%nat).
    { unfold header, ip4_header_unsummed. cbv zeta.
      rewrite !length_app, Hs, Hd. reflexivity. }
    assert (Hzero : setslice (2 * 5) (2 * 5 + 2) [x00; x00] header = header).
    { unfold header.
      destruct src as [|s0 [|s1 [|s2 [|s3 [|]]]]]; try discriminate Hs.
      destruct dst as [|d0 [|d1 [|d2 [|d3 [|]]]]]; try discriminate Hd.
      reflexivity. }
    destruct (checksum_embedded_field header 5) as (field & Hf & Hfl & Hz);
      [rewrite Hlen; simpl; lia | rewrite Hlen; simpl; lia |].
    rewrite Hzero in Hf.
    rewrite int_to_bytes_2 in Hf
      by (apply calculate_checksum_range; rewrite Hlen; simpl; lia).
    injection Hf as <-.
    eexists. split; [reflexivity|].
    assert (Hl' : length (setslice 10 12
                     [byte_of_Z ((calculate_checksum header / 256) mod 256);
                      byte_of_Z (calculate_checksum header mod 256)] header)
                  = 20%nat)
      by (transitivity (length header); [|exact Hlen];
          apply (length_setslice_2 5);
          [rewrite Hlen; simpl; lia | reflexivity]).
    rewrite take_app_length' by (symmetry; exact Hl').
    rewrite drop_app_length' by (symmetry; exact Hl').
    split; [exact Hl'|]. split; [reflexivity|]. exact Hz.
Qed.

Lemma embedded_checksum_verifies_to_zero_witness :
  (exists field,
      int_to_bytes 2
        (calculate_checksum
           (setslice (2 * 1) (2 * 1 + 2) [x00; x00]
              [x12; x34; xab; xcd; x56; x78]))
      = Ok field
      /\ calculate_checksum
           (setslice (2 * 1) (2 * 1 + 2) field [x12; x34; xab; xcd; x56; x78])
         = 0)
  /\ (exists packet,
         ip4_packet MY_IP_ADDR ROUTER_IP_ADDR 253
           (list_byte_of_string "Hello, world!") = Ok packet
         /\ length (take 20 packet) = 20%nat
         /\ drop 20 packet = list_byte_of_string "Hello, world!"
         /\ calculate_checksum (take 20 packet) = 0)
  /\ (ip4_packet [xc0; xa8; x01] ROUTER_IP_ADDR 1
        (list_byte_of_string "Python!!")
      = Ok (expect []
              (ip4_packet [xc0; xa8; x01] ROUTER_IP_ADDR 1
                 (list_byte_of_string "Python!!")))
      /\ drop 20
           (expect []
              (ip4_packet [xc0; xa8; x01] ROUTER_IP_ADDR 1
                 (list_byte_of_string "Python!!")))
         = list_byte_of_string "Python!!"
      /\ calculate_checksum
           (take 20
              (expect []
                 (ip4_packet [xc0; xa8; x01] ROUTER_IP_ADDR 1
                    (list_byte_of_string "Python!!"))))
         = 0).
Proof.
  split; [|split].
  - apply (proj1 embedded_checksum_verifies_to_zero
             [x12; x34; xab; xcd; x56; x78] 1%nat).
    + exists 3%nat. reflexivity.
    + simpl. lia.
    + simpl. lia.
  - apply (proj1 (proj2 embedded_checksum_verifies_to_zero)
             MY_IP_ADDR ROUTER_IP_ADDR 253 (list_byte_of_string "Hello, world!")).
    + reflexivity.
    + reflexivity.
    + lia.
    + simpl. lia.
  - assert (Hpacket :
              ip4_packet [xc0; xa8; x01] ROUTER_IP_ADDR 1
                (list_byte_of_string "Python!!")
              = Ok (expect []
                      (ip4_packet [xc0; xa8; x01] ROUTER_IP_ADDR 1
                         (list_byte_of_string "Python!!"))))
      by reflexivity.
    split; [exact Hpacket|].
    apply (proj2 (proj2 embedded_checksum_verifies_to_zero)
             [xc0; xa8; x01] ROUTER_IP_ADDR 1
             (list_byte_of_string "Python!!") _ Hpacket).
    reflexivity.
Defined.

(** C2 (as the spec states it) fails for a field that is not one of the
    summed words.  The 4-byte buffer [01 00 00 00] has even length, and
    bytes 1 and 2 are a 2-byte field of it; with that field zeroed the
    checksum is [0xFEFF], and once [fe ff] is written into the field the
    checksum of the buffer is [0xFF00], not 0. *)
Lemma checksum_field_across_words_does_not_verify :
  Nat.Even (length [x01; x00; x00; x00])
  /\ Z.of_nat (length [x01; x00; x00; x00]) <= 128 * 1024
  /\ (1 + 2 <= length [x01; x00; x00; x00])%nat
  /\ int_to_bytes 2
       (calculate_checksum (setslice 1 (1 + 2) [x00; x00] [x01; x00; x00; x00]))
     = Ok [xfe; xff]
  /\ setslice 1 (1 + 2) [xfe; xff] [x01; x00; x00; x00] = [x01; xfe; xff; x00]
  /\ calculate_checksum (setslice 1 (1 + 2) [xfe; xff] [x01; x00; x00; x00])
     = 0xFF00
  /\ calculate_checksum (setslice 1 (1 + 2) [xfe; xff] [x01; x00; x00; x00])
     <> 0.
Proof.
  split; [exists 2%nat; reflexivity|].
  split; [simpl; lia|]. split; [simpl; lia|].
  split; [reflexivity|]. split; [reflexivity|]. split; [reflexivity|].
  discriminate.
Qed.

(** ** Routing *)

Lemma byte_eq_of_Z (a : byte) (z : Z) : byte_to_Z a = z -> a = byte_of_Z z.
Proof. intros <-. symmetry. apply byte_of_to_Z. Qed.

Lemma byte_and_xff (b : byte) : byte_and b xff = b.
Proof.
  unfold byte_and. change (byte_to_Z xff) with (Z.ones 8).
  rewrite Z.land_ones by lia.
  rewrite Z.mod_small by (apply byte_to_Z_range). apply byte_of_to_Z.
Qed.

Lemma byte_and_x00 (b : byte) : byte_and b x00 = x00.
Proof.
  unfold byte_and. change (byte_to_Z x00) with 0. rewrite Z.land_0_r.
  reflexivity.
Qed.

Lemma is_on_same_subnet_4 (a b c d : byte) :
  is_on_same_subnet [a; b; c; d] = bool_decide (a = xc0 /\ b = xa8 /\ c = x01).
Proof.
  unfold is_on_same_subnet. cbv zeta.
  change (zip [a; b; c; d] SUBNET_MASK)
    with [(a, xff); (b, xff); (c, xff); (d, x00)].
  change ((fun p : byte * byte => byte_and p.1 p.2)
            <$> zip MY_IP_ADDR SUBNET_MASK)
    with [xc0; xa8; x01; x00].
  cbn [fmap list_fmap fst snd].
  rewrite !byte_and_xff, byte_and_x00.
  apply bool_decide_ext. split.
  - intros [= <- <- <-]. auto.
  - intros (-> & -> & ->). reflexivity.
Qed.

Lemma land_mask_24 (x : Z) :
  0 <= x < 2 ^ 32 -> Z.land x 0xFFFFFF00 = 256 * (x / 256).
Proof.
  intros Hx. apply Z.bits_inj'. intros n Hn.
  rewrite Z.land_spec.
  change 0xFFFFFF00 with (Z.shiftl (Z.ones 24) 8).
  change 256 with (2 ^ 8).
  rewrite Z.mul_comm, <- Z.shiftl_mul_pow2, <- Z.shiftr_div_pow2 by lia.
  destruct (Z.lt_ge_cases n 8) as [Hlow|Hhigh].
  - rewrite !Z.shiftl_spec_low by lia. apply andb_false_r.
  - rewrite !Z.shiftl_spec by lia. rewrite Z.shiftr_spec by lia.
    replace (n - 8 + 8) with n by lia.
    destruct (Z.lt_ge_cases n 32) as [Hin|Hout].
    + rewrite Z.ones_spec_low by lia. apply andb_true_r.
    + rewrite Z.ones_spec_high by lia. rewrite andb_false_r.
      symmetry. destruct (Z.eq_dec x 0) as [->|Hne]; [apply Z.bits_0|].
      apply Z.bits_above_log2; [lia|].
      apply Z.log2_lt_pow2; [lia|].
      apply Z.lt_le_trans with (2 ^ 32); [lia|].
      apply Z.pow_le_mono_r; lia.
Qed.

Lemma ip4_to_Z_4 (a b c d : byte) :
  ip4_to_Z [a; b; c; d]
  = ((byte_to_Z a * 256 + byte_to_Z b) * 256 + byte_to_Z c) * 256 + byte_to_Z d.
Proof. reflexivity. Qed.

Lemma same_prefix_4 (a b c d : byte) :
  Z.land (ip4_to_Z [a; b; c; d]) (ip4_to_Z SUBNET_MASK)
  = Z.land (ip4_to_Z MY_IP_ADDR) (ip4_to_Z SUBNET_MASK)
  <-> a = xc0 /\ b = xa8 /\ c = x01.
Proof.
  change (ip4_to_Z SUBNET_MASK) with 0xFFFFFF00.
  change (Z.land (ip4_to_Z MY_IP_ADDR) 0xFFFFFF00) with 3232235776.
  rewrite ip4_to_Z_4.
  pose proof (byte_to_Z_range a). pose proof (byte_to_Z_range b).
  pose proof (byte_to_Z_range c). pose proof (byte_to_Z_range d).
  set (y := (byte_to_Z a * 256 + byte_to_Z b) * 256 + byte_to_Z c).
  rewrite land_mask_24 by (change (2 ^ 32) with 4294967296; lia).
  replace ((y * 256 + byte_to_Z d) / 256) with y
    by (apply Z.div_unique with (byte_to_Z d); lia).
  split.
  - intros Hy.
    assert (byte_to_Z a = 192 /\ byte_to_Z b = 168 /\ byte_to_Z c = 1)
      as (Ha & Hb & Hc) by lia.
    apply byte_eq_of_Z in Ha, Hb, Hc. auto.
  - intros (-> & -> & ->). reflexivity.
Qed.

(** C1: with own address 192.168.1.250, mask 255.255.255.0 and gateway
    192.168.1.1, [resolve_ip_addr] resolves the 4-byte target [t] itself
    when [t AND mask] equals [own AND mask] (both read as 32-bit integers)
    and resolves the gateway address otherwise; 192.168.1.54 is resolved
    as itself and 8.8.8.8 through 192.168.1.1. *)
Theorem routing_decision_selects_next_hop :
  (forall (t : bytes) (w : World),
      length t = 4%nat ->
      resolve_ip_addr t w
      = resolve_local_ip_addr
          (if decide (Z.land (ip4_to_Z t) (ip4_to_Z SUBNET_MASK)
                      = Z.land (ip4_to_Z MY_IP_ADDR) (ip4_to_Z SUBNET_MASK))
           then t else ROUTER_IP_ADDR) w)
  /\ MY_IP_ADDR = [xc0; xa8; x01; xfa]
  /\ SUBNET_MASK = [xff; xff; xff; x00]
  /\ ROUTER_IP_ADDR = [xc0; xa8; x01; x01]
  /\ (forall w : World,
         resolve_ip_addr [xc0; xa8; x01; x36] w
         = resolve_local_ip_addr [xc0; xa8; x01; x36] w)
  /\ (forall w : World,
         resolve_ip_addr [x08; x08; x08; x08] w
         = resolve_local_ip_addr [xc0; xa8; x01; x01] w).
Proof.
  split; [|repeat split].
  intros t w Ht.
  destruct t as [|a [|b [|c [|d [|]]]]]; try discriminate Ht.
  unfold resolve_ip_addr. rewrite is_on_same_subnet_4.
  destruct (decide _) as [Heq|Hne].
  - apply same_prefix_4 in Heq. rewrite bool_decide_eq_true_2 by exact Heq.
    reflexivity.
  - rewrite bool_decide_eq_false_2; [reflexivity|].
    intros Habc. apply Hne. apply same_prefix_4. exact Habc.
Qed.

Lemma routing_decision_selects_next_hop_witness :
  length [xc0; xa8; x01; x36] = 4%nat
  /\ resolve_ip_addr [xc0; xa8; x01; x36] quiet_world
     = resolve_local_ip_addr
         (if decide (Z.land (ip4_to_Z [xc0; xa8; x01; x36]) (ip4_to_Z SUBNET_MASK)
                     = Z.land (ip4_to_Z MY_IP_ADDR) (ip4_to_Z SUBNET_MASK))
          then [xc0; xa8; x01; x36] else ROUTER_IP_ADDR) quiet_world.
Proof.
  assert (Hlen : length [xc0; xa8; x01; x36] = 4%nat) by reflexivity.
  split; [exact Hlen|].
  exact (proj1 routing_decision_selects_next_hop
           [xc0; xa8; x01; x36] quiet_world Hlen).
Defined.

(** ** ARP encoding and decoding *)

Lemma arp_request_layout (src_mac_addr src_ip_addr dst_ip_addr : bytes) :
  arp_request src_mac_addr src_ip_addr dst_ip_addr
  = [x00; x01; x08; x00; x06; x04; x00; x01]
    ++ src_mac_addr ++ src_ip_addr
    ++ [x00; x00; x00; x00; x00; x00] ++ dst_ip_addr.
Proof. reflexivity. Qed.

(** What [decode_arp_packet] recovers from an encoded request: every
    field but the last is as encoded, and [tpa] holds only the first two
    bytes of the target address. *)
Lemma decode_arp_request (src_mac_addr src_ip_addr dst_ip_addr : bytes) :
  length src_mac_addr = 6%nat ->
  length src_ip_addr = 4%nat ->
  length dst_ip_addr = 4%nat ->
  length (arp_request src_mac_addr src_ip_addr dst_ip_addr) = 28%nat
  /\ decode_arp_packet (arp_request src_mac_addr src_ip_addr dst_ip_addr)
     = {| ArpPacket.htype := [x00; x01];
          ArpPacket.ptype := [x08; x00];
          ArpPacket.hlen := [x06];
          ArpPacket.plen := [x04];
          ArpPacket.oper := [x00; x01];
          ArpPacket.sha := src_mac_addr;
          ArpPacket.spa := src_ip_addr;
          ArpPacket.tha := [x00; x00; x00; x00; x00; x00];
          ArpPacket.tpa := take 2 dst_ip_addr |}
  /\ ArpPacket.tpa
       (decode_arp_packet (arp_request src_mac_addr src_ip_addr dst_ip_addr))
     <> dst_ip_addr.
Proof.
  intros Hm Hs Hd.
  destruct src_mac_addr as [|m0 [|m1 [|m2 [|m3 [|m4 [|m5 [|]]]]]]];
    try discriminate Hm.
  destruct src_ip_addr as [|s0 [|s1 [|s2 [|s3 [|]]]]]; try discriminate Hs.
  destruct dst_ip_addr as [|d0 [|d1 [|d2 [|d3 [|]]]]]; try discriminate Hd.
  rewrite arp_request_layout. repeat split. cbn. discriminate.
Qed.

(** C3: the request for 192.168.1.1 sent from 1c:87:2c:46:e0:47 at
    192.168.1.250 is 28 bytes long and decodes with every field as
    encoded, except that [tpa] comes back as the 2 bytes [c0 a8] instead
    of the 4-byte target address [c0 a8 01 01]. *)
Theorem arp_request_target_ip_decoded_short :
  length (arp_request MY_MAC_ADDR MY_IP_ADDR ROUTER_IP_ADDR) = 28%nat
  /\ decode_arp_packet (arp_request MY_MAC_ADDR MY_IP_ADDR ROUTER_IP_ADDR)
     = {| ArpPacket.htype := [x00; x01];
          ArpPacket.ptype := [x08; x00];
          ArpPacket.hlen := [x06];
          ArpPacket.plen := [x04];
          ArpPacket.oper := [x00; x01];
          ArpPacket.sha := [x1c; x87; x2c; x46; xe0; x47];
          ArpPacket.spa := [xc0; xa8; x01; xfa];
          ArpPacket.tha := [x00; x00; x00; x00; x00; x00];
          ArpPacket.tpa := [xc0; xa8] |}
  /\ ROUTER_IP_ADDR = [xc0; xa8; x01; x01]
  /\ ArpPacket.tpa
       (decode_arp_packet (arp_request MY_MAC_ADDR MY_IP_ADDR ROUTER_IP_ADDR))
     <> ROUTER_IP_ADDR.
Proof.
  split; [reflexivity|]. split; [reflexivity|]. split; [reflexivity|].
  vm_compute. discriminate.
Qed.

(** ** Decoders on short buffers *)

Lemma getitem_lt (data : bytes) (i : nat) :
  (i < length data)%nat -> exists v, getitem data i = Ok v.
Proof.
  intros Hi. unfold getitem.
  destruct (lookup_lt_is_Some_2 data i Hi) as [b ->]. eauto.
Qed.

Lemma getitem_ge (data : bytes) (i : nat) :
  (length data <= i)%nat -> getitem data i = Raise IndexError.
Proof.
  intros Hi. unfold getitem. rewrite lookup_ge_None_2 by exact Hi. reflexivity.
Qed.

Lemma decode_ipv4_packet_ok (data : bytes) :
  (10 <= length data)%nat ->
  exists version_ihl type ttl protocol,
    getitem data 0 = Ok version_ihl
    /\ getitem data 9 = Ok protocol
    /\ decode_ipv4_packet data
       = Ok {| Ipv4Packet.version_ihl := version_ihl;
               Ipv4Packet.type := type;
               Ipv4Packet.length := slice 2 4 data;
               Ipv4Packet.id := slice 4 6 data;
               Ipv4Packet.flags_offset := slice 6 8 data;
               Ipv4Packet.ttl := ttl;
               Ipv4Packet.protocol := protocol;
               Ipv4Packet.checksum := slice 10 12 data;
               Ipv4Packet.src_addr := slice 12 16 data;
               Ipv4Packet.dst_addr := slice 16 20 data;
               Ipv4Packet.payload := drop 20 data |}.
Proof.
  intros Hlen. unfold decode_ipv4_packet.
  destruct (getitem_lt data 0 ltac:(lia)) as [v0 E0].
  destruct (getitem_lt data 1 ltac:(lia)) as [v1 E1].
  destruct (getitem_lt data 8 ltac:(lia)) as [v8 E8].
  destruct (getitem_lt data 9 ltac:(lia)) as [v9 E9].
  exists v0, v1, v8, v9. rewrite E0, E1, E8, E9. auto.
Qed.

Lemma decode_ipv4_packet_short (data : bytes) :
  (length data < 10)%nat -> decode_ipv4_packet data = Raise IndexError.
Proof.
  intros Hlen. unfold decode_ipv4_packet.
  destruct (getitem data 0) as [v0|e0] eqn:E0; cbn [rbind].
  2:{ unfold getitem in E0. destruct (data !! 0%nat); congruence. }
  destruct (getitem data 1) as [v1|e1] eqn:E1; cbn [rbind].
  2:{ unfold getitem in E1. destruct (data !! 1%nat); congruence. }
  destruct (getitem data 8) as [v8|e8] eqn:E8; cbn [rbind].
  2:{ unfold getitem in E8. destruct (data !! 8%nat); congruence. }
  rewrite getitem_ge by lia. reflexivity.
Qed.

Lemma decode_icmp_packet_ok (data : bytes) :
  (2 <= length data)%nat ->
  exists type code,
    decode_icmp_packet data
    = Ok {| IcmpPacket.type := type;
            IcmpPacket.code := code;
            IcmpPacket.checksum := slice 2 4 data;
            IcmpPacket.identifier := int_from_bytes (slice 4 6 data);
            IcmpPacket.sequence_no := int_from_bytes (slice 6 8 data);
            IcmpPacket.payload := drop 8 data |}.
Proof.
  intros Hlen. unfold decode_icmp_packet.
  destruct (getitem_lt data 0 ltac:(lia)) as [v0 E0].
  destruct (getitem_lt data 1 ltac:(lia)) as [v1 E1].
  exists v0, v1. rewrite E0, E1. reflexivity.
Qed.

Lemma decode_icmp_packet_short (data : bytes) :
  (length data < 2)%nat -> decode_icmp_packet data = Raise IndexError.
Proof.
  intros Hlen. unfold decode_icmp_packet.
  destruct (getitem data 0) as [v0|e0] eqn:E0; cbn [rbind].
  2:{ unfold getitem in E0. destruct (data !! 0%nat); congruence. }
  rewrite getitem_ge by lia. reflexivity.
Qed.

Lemma slice_slice_app (a b c : nat) (data : bytes) :
  (a <= b <= c)%nat -> slice a b data ++ slice b c data = slice a c data.
Proof.
  intros Habc. unfold slice.
  replace (c - a)%nat with ((b - a) + (c - b))%nat by lia.
  rewrite <- take_take_drop, drop_drop.
  replace (a + (b - a))%nat with b by lia. reflexivity.
Qed.

(** C6 (as the code has it): no decoder checks a minimum length, and none
    reports a truncation error.  [decode_ethernet_frame] and
    [decode_arp_packet] return a record for every buffer, however short,
    with the fields cut where the buffer ends (the Ethernet fields
    concatenate back to the whole input, the ARP fields to its first 26
    bytes).  [decode_ipv4_packet] fails, with [IndexError], exactly when
    the buffer has fewer than 10 bytes, and [decode_icmp_packet] exactly
    when it has fewer than 2. *)
Theorem decoders_do_not_check_minimum_length (data : bytes) :
  (let frame := decode_ethernet_frame data in
   EthernetFrame.dst_addr frame ++ EthernetFrame.src_addr frame
     ++ EthernetFrame.ethertype frame ++ EthernetFrame.payload frame = data)
  /\ (let p := decode_arp_packet data in
      ArpPacket.htype p ++ ArpPacket.ptype p ++ ArpPacket.hlen p
        ++ ArpPacket.plen p ++ ArpPacket.oper p ++ ArpPacket.sha p
        ++ ArpPacket.spa p ++ ArpPacket.tha p ++ ArpPacket.tpa p
      = take 26 data)
  /\ ((exists p, decode_ipv4_packet data = Ok p) <-> (10 <= length data)%nat)
  /\ (decode_ipv4_packet data = Raise IndexError <-> (length data < 10)%nat)
  /\ ((exists p, decode_icmp_packet data = Ok p) <-> (2 <= length data)%nat)
  /\ (decode_icmp_packet data = Raise IndexError <-> (length data < 2)%nat).
Proof.
  split; [|split; [|split; [|split; [|split]]]].
  - cbv zeta. cbn [decode_ethernet_frame EthernetFrame.dst_addr
                     EthernetFrame.src_addr EthernetFrame.ethertype
                     EthernetFrame.payload].
    rewrite !app_assoc, !slice_slice_app by lia.
    unfold slice. rewrite drop_0. apply take_drop.
  - cbv zeta. cbn [decode_arp_packet ArpPacket.htype ArpPacket.ptype
                     ArpPacket.hlen ArpPacket.plen ArpPacket.oper
                     ArpPacket.sha ArpPacket.spa ArpPacket.tha ArpPacket.tpa].
    rewrite !app_assoc, !slice_slice_app by lia.
    unfold slice. rewrite drop_0. reflexivity.
  - destruct (le_lt_dec 10 (length data)) as [Hge|Hlt].
    + destruct (decode_ipv4_packet_ok data Hge) as (v0 & v1 & v8 & v9 & _ & _ & E).
      rewrite E. split; [intros _; lia | eauto].
    + rewrite (decode_ipv4_packet_short data Hlt).
      split; [intros [p Hp]; discriminate | intros ?; exfalso; lia].
  - destruct (le_lt_dec 10 (length data)) as [Hge|Hlt].
    + destruct (decode_ipv4_packet_ok data Hge) as (v0 & v1 & v8 & v9 & _ & _ & E).
      rewrite E. split; [discriminate | intros ?; exfalso; lia].
    + rewrite (decode_ipv4_packet_short data Hlt). split; auto.
  - destruct (le_lt_dec 2 (length data)) as [Hge|Hlt].
    + destruct (decode_icmp_packet_ok data Hge) as (v0 & v1 & E).
      rewrite E. split; [intros _; lia | eauto].
    + rewrite (decode_icmp_packet_short data Hlt).
      split; [intros [p Hp]; discriminate | intros ?; exfalso; lia].
  - destruct (le_lt_dec 2 (length data)) as [Hge|Hlt].
    + destruct (decode_icmp_packet_ok data Hge) as (v0 & v1 & E).
      rewrite E. split; [discriminate | intros ?; exfalso; lia].
    + rewrite (decode_icmp_packet_short data Hlt). split; auto.
Qed.

(** C6 (as the spec states it) fails: buffers one byte below each format's
    minimum length (13, 27, 19 and 7 bytes) are decoded into records. *)
Lemma short_buffers_are_decoded_without_error :
  decode_ethernet_frame (replicate 13 x00)
  = {| EthernetFrame.dst_addr := replicate 6 x00;
       EthernetFrame.src_addr := replicate 6 x00;
       EthernetFrame.ethertype := [x00];
       EthernetFrame.payload := [] |}
  /\ decode_arp_packet (replicate 27 x00)
     = {| ArpPacket.htype := [x00; x00];
          ArpPacket.ptype := [x00; x00];
          ArpPacket.hlen := [x00];
          ArpPacket.plen := [x00];
          ArpPacket.oper := [x00; x00];
          ArpPacket.sha := replicate 6 x00;
          ArpPacket.spa := replicate 4 x00;
          ArpPacket.tha := replicate 6 x00;
          ArpPacket.tpa := [x00; x00] |}
  /\ decode_ipv4_packet (replicate 19 x00)
     = Ok {| Ipv4Packet.version_ihl := 0;
             Ipv4Packet.type := 0;
             Ipv4Packet.length := [x00; x00];
             Ipv4Packet.id := [x00; x00];
             Ipv4Packet.flags_offset := [x00; x00];
             Ipv4Packet.ttl := 0;
             Ipv4Packet.protocol := 0;
             Ipv4Packet.checksum := [x00; x00];
             Ipv4Packet.src_addr := replicate 4 x00;
             Ipv4Packet.dst_addr := replicate 3 x00;
             Ipv4Packet.payload := [] |}
  /\ decode_icmp_packet (replicate 7 x00)
     = Ok {| IcmpPacket.type := 0;
             IcmpPacket.code := 0;
             IcmpPacket.checksum := [x00; x00];
             IcmpPacket.identifier := 0;
             IcmpPacket.sequence_no := 0;
             IcmpPacket.payload := [] |}.
Proof. repeat split. Qed.

(** C10: on every buffer of at least 20 bytes [decode_ipv4_packet] returns
    bytes 20 onward as the payload, whatever the header-length nibble of
    the first byte says; when that nibble announces options (IHL from 6 to
    15) the option bytes that follow the 20 fixed bytes come back at the
    head of the payload. *)
Theorem decode_ipv4_packet_payload_from_byte_20 :
  (forall data : bytes,
      (20 <= length data)%nat ->
      exists p,
        decode_ipv4_packet data = Ok p
        /\ getitem data 0 = Ok (Ipv4Packet.version_ihl p)
        /\ Ipv4Packet.payload p = drop 20 data)
  /\ (forall (ihl : Z) (rest options body : bytes),
         5 < ihl < 16 ->
         length rest = 19%nat ->
         exists p,
           decode_ipv4_packet ((byte_of_Z (64 + ihl) :: rest) ++ options ++ body)
           = Ok p
           /\ Z.land (Ipv4Packet.version_ihl p) 15 = ihl
           /\ Ipv4Packet.payload p = options ++ body).
Proof.
  split.
  - intros data Hlen.
    destruct (decode_ipv4_packet_ok data ltac:(lia))
      as (v0 & v1 & v8 & v9 & E0 & _ & E).
    eexists. split; [exact E|]. split; [exact E0 | reflexivity].
  - intros ihl rest options body Hihl Hrest.
    set (data := (byte_of_Z (64 + ihl) :: rest) ++ options ++ body).
    assert (Hlen : (10 <= length data)%nat)
      by (unfold data; rewrite length_app; simpl; lia).
    destruct (decode_ipv4_packet_ok data Hlen)
      as (v0 & v1 & v8 & v9 & E0 & _ & E).
    eexists. split; [exact E|]. cbn [Ipv4Packet.version_ihl Ipv4Packet.payload].
    split.
    + unfold data, getitem in E0. cbn in E0. injection E0 as <-.
      rewrite byte_to_of_Z by lia.
      change 15 with (Z.ones 4). rewrite Z.land_ones by lia.
      replace (64 + ihl) with (ihl + 4 * 2 ^ 4) by lia.
      rewrite Z.mod_add by lia. apply Z.mod_small. lia.
    + unfold data. apply drop_app_length'. simpl. lia.
Qed.

Lemma decode_ipv4_packet_payload_from_byte_20_witness :
  (exists p,
      decode_ipv4_packet (replicate 24 x46) = Ok p
      /\ getitem (replicate 24 x46) 0 = Ok (Ipv4Packet.version_ihl p)
      /\ Ipv4Packet.payload p = drop 20 (replicate 24 x46))
  /\ (exists p,
         decode_ipv4_packet
           ((byte_of_Z (64 + 6) :: replicate 19 x00)
              ++ [x01; x01; x01; x00] ++ list_byte_of_string "data")
         = Ok p
         /\ Z.land (Ipv4Packet.version_ihl p) 15 = 6
         /\ Ipv4Packet.payload p
            = [x01; x01; x01; x00] ++ list_byte_of_string "data").
Proof.
  split.
  - apply (proj1 decode_ipv4_packet_payload_from_byte_20 (replicate 24 x46)).
    simpl. lia.
  - apply (proj2 decode_ipv4_packet_payload_from_byte_20 6 (replicate 19 x00)).
    + lia.
    + reflexivity.
Defined.

(** ** The echo request through all three layers *)

Lemma icmp_ping_request_packet_ok (identifier sequence_no : Z) :
  0 <= identifier < 65536 ->
  0 <= sequence_no < 65536 ->
  let message := icmp_message_unsummed identifier sequence_no in
  icmp_ping_request_packet identifier sequence_no
  = Ok (setslice 2 4
          [byte_of_Z ((calculate_checksum message / 256) mod 256);
           byte_of_Z (calculate_checksum message mod 256)] message).
Proof.
  intros Hi Hs message. unfold icmp_ping_request_packet. cbv zeta.
  change (setitem 0 8 (bytearray 8)) with (Ok (x08 :: replicate 7 x00)).
  cbn [rbind].
  change (setitem 1 0 (x08 :: replicate 7 x00)) with (Ok (x08 :: replicate 7 x00)).
  cbn [rbind].
  rewrite (int_to_bytes_2 identifier) by exact Hi. cbn [rbind].
  rewrite (int_to_bytes_2 sequence_no) by exact Hs. cbn [rbind].
  change (setslice 6 8 _ (setslice 4 6 _ (x08 :: replicate 7 x00))
            ++ list_byte_of_string "Python!!") with message.
  rewrite (int_to_bytes_2 (calculate_checksum message)); [reflexivity|].
  apply calculate_checksum_range. unfold message. simpl. lia.
Qed.

Lemma icmp_ping_request_packet_overflow (identifier sequence_no : Z) :
  ~ (0 <= identifier < 65536 /\ 0 <= sequence_no < 65536) ->
  icmp_ping_request_packet identifier sequence_no = Raise OverflowError.
Proof.
  intros Hno. unfold icmp_ping_request_packet. cbv zeta.
  change (setitem 0 8 (bytearray 8)) with (Ok (x08 :: replicate 7 x00)).
  cbn [rbind].
  change (setitem 1 0 (x08 :: replicate 7 x00)) with (Ok (x08 :: replicate 7 x00)).
  cbn [rbind].
  destruct (decide (0 <= identifier < 65536)) as [Hi|Hi].
  - rewrite (int_to_bytes_2 identifier) by exact Hi. cbn [rbind].
    rewrite (int_to_bytes_2_overflow sequence_no) by tauto. reflexivity.
  - rewrite (int_to_bytes_2_overflow identifier) by exact Hi. reflexivity.
Qed.

(** C7: an echo request with 16-bit identifier and sequence number, wrapped
    by [ip4_packet] with protocol 1 between two 4-byte addresses and by
    [ethernet_frame] with ethertype IPv4 between two 6-byte addresses,
    decodes through [decode_ethernet_frame], [decode_ipv4_packet] and
    [decode_icmp_packet] to the same identifier, the same sequence number
    and the 8 payload bytes "Python!!". *)
Theorem echo_request_round_trip (identifier sequence_no : Z)
    (dst_mac src_mac src_ip_addr dst_ip_addr : bytes) :
  0 <= identifier < 65536 ->
  0 <= sequence_no < 65536 ->
  length dst_mac = 6%nat -> length src_mac = 6%nat ->
  length src_ip_addr = 4%nat -> length dst_ip_addr = 4%nat ->
  exists icmp ip ipv4_packet icmp_packet,
    icmp_ping_request_packet identifier sequence_no = Ok icmp
    /\ ip4_packet src_ip_addr dst_ip_addr 1 icmp = Ok ip
    /\ (let frame :=
          decode_ethernet_frame (ethernet_frame dst_mac src_mac IPV4 ip) in
        EthernetFrame.dst_addr frame = dst_mac
        /\ EthernetFrame.src_addr frame = src_mac
        /\ EthernetFrame.ethertype frame = IPV4
        /\ decode_ipv4_packet (EthernetFrame.payload frame) = Ok ipv4_packet)
    /\ Ipv4Packet.protocol ipv4_packet = 1
    /\ Ipv4Packet.src_addr ipv4_packet = src_ip_addr
    /\ Ipv4Packet.dst_addr ipv4_packet = dst_ip_addr
    /\ decode_icmp_packet (Ipv4Packet.payload ipv4_packet) = Ok icmp_packet
    /\ IcmpPacket.type icmp_packet = 8
    /\ IcmpPacket.code icmp_packet = 0
    /\ IcmpPacket.identifier icmp_packet = identifier
    /\ IcmpPacket.sequence_no icmp_packet = sequence_no
    /\ IcmpPacket.payload icmp_packet = list_byte_of_string "Python!!".
Proof.
  intros Hi Hs Hdm Hsm Hsi Hdi.
  pose proof (icmp_ping_request_packet_ok identifier sequence_no Hi Hs) as Hicmp.
  cbv zeta in Hicmp.
  set (icmp := setslice 2 4 _ _) in Hicmp.
  assert (Hicmp_len : length icmp = 16%nat) by reflexivity.
  pose proof (ip4_packet_ok src_ip_addr dst_ip_addr 1 icmp Hsi Hdi
                ltac:(lia) ltac:(rewrite Hicmp_len; simpl; lia)) as Hip.
  cbv zeta in Hip.
  destruct dst_mac as [|a0 [|a1 [|a2 [|a3 [|a4 [|a5 [|]]]]]]];
    try discriminate Hdm.
  destruct src_mac as [|b0 [|b1 [|b2 [|b3 [|b4 [|b5 [|]]]]]]];
    try discriminate Hsm.
  destruct src_ip_addr as [|s0 [|s1 [|s2 [|s3 [|]]]]]; try discriminate Hsi.
  destruct dst_ip_addr as [|d0 [|d1 [|d2 [|d3 [|]]]]]; try discriminate Hdi.
  set (header := setslice 10 12 _ _) in Hip.
  exists icmp, (header ++ icmp).
  eexists. eexists.
  split; [exact Hicmp|]. split; [exact Hip|].
  split.
  { cbv zeta. split; [reflexivity|]. split; [reflexivity|].
    split; [reflexivity|].
    change (EthernetFrame.payload
              (decode_ethernet_frame
                 (ethernet_frame [a0; a1; a2; a3; a4; a5]
                    [b0; b1; b2; b3; b4; b5] IPV4 (header ++ icmp))))
      with (header ++ icmp).
    reflexivity. }
  cbn [Ipv4Packet.protocol Ipv4Packet.src_addr Ipv4Packet.dst_addr
       Ipv4Packet.payload].
  split; [reflexivity|]. split; [reflexivity|]. split; [reflexivity|].
  split; [reflexivity|].
  cbn [IcmpPacket.type IcmpPacket.code IcmpPacket.identifier
       IcmpPacket.sequence_no IcmpPacket.payload].
  split; [reflexivity|]. split; [reflexivity|].
  split; [exact (int_from_to_bytes_2 identifier Hi)|].
  split; [exact (int_from_to_bytes_2 sequence_no Hs)|].
  reflexivity.
Qed.

Lemma echo_request_round_trip_witness :
  exists icmp ip ipv4_packet icmp_packet,
    icmp_ping_request_packet 1 1 = Ok icmp
    /\ ip4_packet MY_IP_ADDR ROUTER_IP_ADDR 1 icmp = Ok ip
    /\ (let frame :=
          decode_ethernet_frame
            (ethernet_frame BROADCAST_MAC_ADDR MY_MAC_ADDR IPV4 ip) in
        EthernetFrame.dst_addr frame = BROADCAST_MAC_ADDR
        /\ EthernetFrame.src_addr frame = MY_MAC_ADDR
        /\ EthernetFrame.ethertype frame = IPV4
        /\ decode_ipv4_packet (EthernetFrame.payload frame) = Ok ipv4_packet)
    /\ Ipv4Packet.protocol ipv4_packet = 1
    /\ Ipv4Packet.src_addr ipv4_packet = MY_IP_ADDR
    /\ Ipv4Packet.dst_addr ipv4_packet = ROUTER_IP_ADDR
    /\ decode_icmp_packet (Ipv4Packet.payload ipv4_packet) = Ok icmp_packet
    /\ IcmpPacket.type icmp_packet = 8
    /\ IcmpPacket.code icmp_packet = 0
    /\ IcmpPacket.identifier icmp_packet = 1
    /\ IcmpPacket.sequence_no icmp_packet = 1
    /\ IcmpPacket.payload icmp_packet = list_byte_of_string "Python!!".
Proof.
  apply (echo_request_round_trip 1 1 BROADCAST_MAC_ADDR MY_MAC_ADDR
           MY_IP_ADDR ROUTER_IP_ADDR); first [lia | reflexivity].
Defined.

(** ** The two receive loops *)

Lemma receive_arp_response_loop_wait (sender_ip_addr : bytes)
    (rx : list (Q * bytes)) (time_left elapsed : Q) :
  receive_arp_response_loop sender_ip_addr rx time_left elapsed
  = wait_loop (fun data => Ok (arp_response_verdict sender_ip_addr data))
      rx time_left elapsed.
Proof.
  revert time_left elapsed.
  induction rx as [|[t data] rx IH]; intros time_left elapsed.
  - reflexivity.
  - cbn [receive_arp_response_loop wait_loop].
    destruct (Qlt_le_dec time_left 0); [reflexivity|].
    destruct (Qle_bool t time_left); [|reflexivity].
    fold (arp_response_verdict sender_ip_addr data).
    destruct (arp_response_verdict sender_ip_addr data); [reflexivity|].
    destruct (Qle_bool (time_left - t) 0); [reflexivity|]. apply IH.
Qed.

Lemma receive_echo_reply_loop_wait (src_ip_addr : bytes)
    (identifier sequence_no : Z)
    (rx : list (Q * bytes)) (time_left elapsed : Q) :
  receive_echo_reply_loop src_ip_addr identifier sequence_no rx time_left elapsed
  = wait_loop (echo_reply_verdict src_ip_addr identifier sequence_no)
      rx time_left elapsed.
Proof.
  revert time_left elapsed.
  induction rx as [|[t data] rx IH]; intros time_left elapsed.
  - reflexivity.
  - cbn [receive_echo_reply_loop wait_loop].
    destruct (Qlt_le_dec time_left 0); [reflexivity|].
    destruct (Qle_bool t time_left); [|reflexivity].
    fold (echo_reply_verdict src_ip_addr identifier sequence_no data).
    destruct (echo_reply_verdict src_ip_addr identifier sequence_no data)
      as [[p|]|e]; [reflexivity| |reflexivity].
    destruct (Qle_bool (time_left - t) 0); [reflexivity|]. apply IH.
Qed.

Section WaitLoop.
Context {A : Type} (test : bytes -> result (option A)).


(** The loop only ever returns what the test produced on some frame,
    or gives up with [None]. *)
Lemma wait_loop_result (rx : list (Q * bytes)) (time_left elapsed : Q) :
  (0 <= time_left)%Q ->
  (wait_loop test rx time_left elapsed).1.1 = Ok None
  \/ exists t data,
      (t, data) ∈ rx
      /\ test data = (wait_loop test rx time_left elapsed).1.1
      /\ test data <> Ok None.
Proof.
  revert time_left elapsed.
  induction rx as [|[t data] rx IH]; intros time_left elapsed Hpos.
  - cbn [wait_loop]. destruct (Qlt_le_dec time_left 0); [lra | left; reflexivity].
  - cbn [wait_loop].
    destruct (Qlt_le_dec time_left 0); [lra|].
    destruct (Qle_bool t time_left) eqn:Ht; [|left; reflexivity].
    apply Qle_bool_iff in Ht.
    destruct (test data) as [[a|]|e] eqn:Htest.
    + right. exists t, data. rewrite Htest.
      split; [apply list_elem_of_here|]. split; [reflexivity | discriminate].
    + destruct (Qle_bool (time_left - t) 0) eqn:Hleft; [left; reflexivity|].
      destruct (IH (time_left - t)%Q (elapsed + t)%Q ltac:(lra))
        as [Hnone|(t' & data' & Hin & Hres & Hne)].
      * left. exact Hnone.
      * right. exists t', data'.
        split; [apply list_elem_of_further; exact Hin|]. split; assumption.
    + right. exists t, data. rewrite Htest.
      split; [apply list_elem_of_here|]. split; [reflexivity | discriminate].
Qed.
End WaitLoop.

(** ** Waiting is bounded *)




Lemma receive_arp_response_wait (sender_ip_addr : bytes) (timeout : Q)
    (w : World) :
  receive_arp_response sender_ip_addr timeout w
  = let r := wait_loop (fun data => Ok (arp_response_verdict sender_ip_addr data))
               (pending w) timeout (waited w) in
    (r.1.1, after_receive r.1.2 r.2 w).
Proof.
  unfold receive_arp_response. rewrite receive_arp_response_loop_wait.
  destruct (wait_loop _ _ _ _) as [[r rx] t]. reflexivity.
Qed.

Lemma receive_echo_reply_wait (src_ip_addr : bytes) (identifier sequence_no : Z)
    (timeout : Q) (w : World) :
  receive_echo_reply src_ip_addr identifier sequence_no timeout w
  = let r := wait_loop (echo_reply_verdict src_ip_addr identifier sequence_no)
               (pending w) timeout (waited w) in
    (r.1.1, after_receive r.1.2 r.2 w).
Proof.
  unfold receive_echo_reply. rewrite receive_echo_reply_loop_wait.
  destruct (wait_loop _ _ _ _) as [[r rx] t]. reflexivity.
Qed.

(** ** The loops on a transport that need not fall silent *)

Section WaitRun.
Context {A : Type} (test : bytes -> result (option A)).






(** When [select] never has to wait for the next frame and the test passes
    every frame over, the budget never shrinks and the loop keeps
    running. *)
Lemma wait_run_back_to_back (frames : transport) (fuel k : nat)
    (time_left elapsed : Q) :
  (forall j, exists data, frames j = Some (0%Q, data) /\ test data = Ok None) ->
  (0 < time_left)%Q ->
  wait_run test frames fuel k time_left elapsed = None.
Proof.
  intros Hflood. revert k time_left elapsed.
  induction fuel as [|fuel IH]; intros k time_left elapsed Hpos; [reflexivity|].
  cbn [wait_run].
  destruct (Qlt_le_dec time_left 0); [lra|].
  destruct (Hflood k) as (data & -> & ->).
  destruct (Qle_bool 0 time_left) eqn:Hle.
  2:{ exfalso. apply not_true_iff_false in Hle. apply Hle.
      apply Qle_bool_iff. lra. }
  destruct (Qle_bool (time_left - 0) 0) eqn:Hleft.
  { exfalso. apply Qle_bool_iff in Hleft. lra. }
  apply IH. lra.
Qed.

End WaitRun.




(** Without either condition the loops need not stop: while every frame is
    there before [select] has to wait for it, and is passed over, the
    budget stays at [d] and no number of iterations ends the loop. *)
Lemma back_to_back_traffic_keeps_the_loops_running (fuel : nat) :
  wait_run (fun data => Ok (arp_response_verdict ROUTER_IP_ADDR data))
    back_to_back_traffic fuel 0 1 0 = None
  /\ wait_run (echo_reply_verdict ROUTER_IP_ADDR 1 1)
       back_to_back_traffic fuel 0 1 0 = None.
Proof.
  split; apply wait_run_back_to_back; try reflexivity;
    intros j; exists ipv6_frame; split; reflexivity.
Qed.


(** ** The resolver and its table *)

Lemma resolve_ip_addr_next_hop (ip_addr : bytes) (w : World) :
  resolve_ip_addr ip_addr w = resolve_local_ip_addr (next_hop ip_addr) w.
Proof.
  unfold resolve_ip_addr, next_hop. destruct (is_on_same_subnet ip_addr); reflexivity.
Qed.

Lemma resolve_local_ip_addr_hit (ip_addr mac : bytes) (w : World) :
  ARP_TABLE w !! ip_addr = Some mac ->
  resolve_local_ip_addr ip_addr w = (Ok (Some mac), w).
Proof. intros Hhit. unfold resolve_local_ip_addr. rewrite Hhit. reflexivity. Qed.

Lemma resolve_local_ip_addr_miss (ip_addr : bytes) (w : World) :
  ARP_TABLE w !! ip_addr = None ->
  sent (resolve_local_ip_addr ip_addr w).2 = sent w ++ [arp_broadcast ip_addr]
  /\ (forall mac,
         (resolve_local_ip_addr ip_addr w).1 = Ok (Some mac) ->
         ARP_TABLE (resolve_local_ip_addr ip_addr w).2 !! ip_addr = Some mac).
Proof.
  intros Hmiss. unfold resolve_local_ip_addr. rewrite Hmiss.
  unfold receive_arp_response.
  destruct (receive_arp_response_loop _ _ _ _) as [[[[response|]|e] rx] t];
    cbn [fst snd sent print arp_table_store after_receive socket_send ARP_TABLE].
  - split; [reflexivity|]. intros mac [= <-]. apply lookup_insert_eq.
  - split; [reflexivity|]. discriminate.
  - split; [reflexivity|]. discriminate.
Qed.

Lemma resolve_local_ip_addr_stored (ip_addr mac : bytes) (w w' : World) :
  resolve_local_ip_addr ip_addr w = (Ok (Some mac), w') ->
  ARP_TABLE w' !! ip_addr = Some mac.
Proof.
  intros Hres. destruct (ARP_TABLE w !! ip_addr) as [mac0|] eqn:Hlook.
  - rewrite (resolve_local_ip_addr_hit _ _ _ Hlook) in Hres.
    injection Hres as <- <-. exact Hlook.
  - destruct (resolve_local_ip_addr_miss ip_addr w Hlook) as [_ Hstore].
    rewrite Hres in Hstore. apply Hstore. reflexivity.
Qed.

(** C5: for an address present in the ARP table the resolver returns the
    stored MAC address and leaves the world exactly as it was: nothing is
    sent, no wait is entered, no socket is opened.  Hence a resolution
    that succeeded is answered from the table the next time, both for
    [resolve_local_ip_addr] and, after the routing decision, for
    [resolve_ip_addr]; in particular for 192.168.1.1. *)
Theorem cached_address_is_resolved_without_io :
  (forall (ip_addr mac : bytes) (w : World),
      ARP_TABLE w !! ip_addr = Some mac ->
      resolve_local_ip_addr ip_addr w = (Ok (Some mac), w))
  /\ (forall (ip_addr mac : bytes) (w : World),
         ARP_TABLE w !! next_hop ip_addr = Some mac ->
         resolve_ip_addr ip_addr w = (Ok (Some mac), w))
  /\ (forall (ip_addr mac : bytes) (w w' : World),
         resolve_local_ip_addr ip_addr w = (Ok (Some mac), w') ->
         resolve_local_ip_addr ip_addr w' = (Ok (Some mac), w'))
  /\ (forall (ip_addr mac : bytes) (w w' : World),
         resolve_ip_addr ip_addr w = (Ok (Some mac), w') ->
         resolve_ip_addr ip_addr w' = (Ok (Some mac), w')).
Proof.
  split; [exact resolve_local_ip_addr_hit|]. split; [|split].
  - intros ip_addr mac w Hhit. rewrite resolve_ip_addr_next_hop.
    apply resolve_local_ip_addr_hit. exact Hhit.
  - intros ip_addr mac w w' Hres. apply resolve_local_ip_addr_hit.
    exact (resolve_local_ip_addr_stored _ _ _ _ Hres).
  - intros ip_addr mac w w' Hres. rewrite resolve_ip_addr_next_hop in *.
    apply resolve_local_ip_addr_hit.
    exact (resolve_local_ip_addr_stored _ _ _ _ Hres).
Qed.

Lemma cached_address_is_resolved_without_io_witness :
  resolve_ip_addr ROUTER_IP_ADDR router_answers
  = (Ok (Some [x00; x1f; x16; xf8; x37; x86]), router_resolved)
  /\ sent router_resolved = [arp_broadcast ROUTER_IP_ADDR]
  /\ resolve_ip_addr ROUTER_IP_ADDR router_resolved
     = (Ok (Some [x00; x1f; x16; xf8; x37; x86]), router_resolved).
Proof.
  assert (Hfirst : resolve_ip_addr ROUTER_IP_ADDR router_answers
                   = (Ok (Some [x00; x1f; x16; xf8; x37; x86]), router_resolved))
    by reflexivity.
  split; [exact Hfirst|]. split; [reflexivity|].
  exact (proj2 (proj2 (proj2 cached_address_is_resolved_without_io))
           ROUTER_IP_ADDR [x00; x1f; x16; xf8; x37; x86]
           router_answers router_resolved Hfirst).
Defined.

(** ** Echo request without a route *)

Lemma ip4_packet_echo_ok (dst_ip_addr icmp : bytes) :
  length icmp = 16%nat ->
  exists packet, ip4_packet MY_IP_ADDR dst_ip_addr 1 icmp = Ok packet.
Proof.
  intros Hlen. unfold ip4_packet. cbv zeta. rewrite Hlen.
  change (int_to_bytes 2 (5 * 4 + Z.of_nat 16)) with (Ok [x00; x24]).
  change (bytearray (Z.to_nat (5 * 4))) with (replicate 20 x00).
  change (setitem 0 (Z.shiftl 4 4 + 5) (replicate 20 x00))
    with (Ok (x45 :: replicate 19 x00)).
  cbn [rbind].
  change (setitem 1 (Z.shiftl 0 2 + 0) (x45 :: replicate 19 x00))
    with (Ok (x45 :: replicate 19 x00)).
  cbn [rbind].
  change (int_to_bytes 2 0) with (Ok [x00; x00]). cbn [rbind].
  change (int_to_bytes 2 (Z.shiftl 2 13 + 0)) with (Ok [x40; x00]). cbn [rbind].
  match goal with
  | |- context [setitem 8 64 ?h] =>
      change (setitem 8 64 h)
        with (Ok ([x45; x00; x00; x24; x00; x00; x40; x00; x40]
                    ++ replicate 11 x00))
  end.
  cbn [rbind].
  match goal with
  | |- context [setitem 9 1 ?h] =>
      change (setitem 9 1 h)
        with (Ok ([x45; x00; x00; x24; x00; x00; x40; x00; x40; x01]
                    ++ replicate 10 x00))
  end.
  cbn [rbind].
  rewrite int_to_bytes_2 by apply calculate_checksum_16_bits.
  cbn [rbind]. eauto.
Qed.

Lemma length_icmp_ping_request_packet (identifier sequence_no : Z) (icmp : bytes) :
  icmp_ping_request_packet identifier sequence_no = Ok icmp ->
  length icmp = 16%nat.
Proof.
  destruct (decide (0 <= identifier < 65536 /\ 0 <= sequence_no < 65536))
    as [[Hi Hs]|Hno].
  - rewrite (icmp_ping_request_packet_ok _ _ Hi Hs). intros [= <-]. reflexivity.
  - rewrite (icmp_ping_request_packet_overflow _ _ Hno). discriminate.
Qed.

(** C8 (as the code has it): when the resolver returns [None] for the
    destination, [send_echo_request] does not return: it ends with an
    exception, [TypeError] from [ethernet_frame] when identifier and
    sequence number fit 16 bits ([OverflowError] from the ICMP encoder
    otherwise).  That is not the time-out outcome, which is the [None]
    returned by [receive_echo_reply].  No echo request is transmitted: the
    world is the one the failed resolution left, in which the only frame
    sent is the resolver's ARP broadcast for the next hop. *)
Theorem echo_request_without_route_raises (dst_ip_addr : bytes)
    (identifier sequence_no : Z) (w w' : World) :
  resolve_ip_addr dst_ip_addr w = (Ok None, w') ->
  send_echo_request dst_ip_addr identifier sequence_no w
  = (Raise (if decide (0 <= identifier < 65536 /\ 0 <= sequence_no < 65536)
            then TypeError else OverflowError), w')
  /\ sent w' = sent w ++ [arp_broadcast (next_hop dst_ip_addr)].
Proof.
  intros Hres. split.
  - unfold send_echo_request. rewrite Hres.
    destruct (decide _) as [[Hi Hs]|Hno].
    + destruct (icmp_ping_request_packet identifier sequence_no)
        as [icmp|e] eqn:Hicmp.
      2:{ rewrite (icmp_ping_request_packet_ok _ _ Hi Hs) in Hicmp.
          discriminate. }
      cbn [rbind].
      destruct (ip4_packet_echo_ok dst_ip_addr icmp
                  (length_icmp_ping_request_packet _ _ _ Hicmp)) as [packet ->].
      reflexivity.
    + rewrite (icmp_ping_request_packet_overflow _ _ Hno). reflexivity.
  - rewrite resolve_ip_addr_next_hop in Hres.
    destruct (ARP_TABLE w !! next_hop dst_ip_addr) as [mac|] eqn:Hlook.
    + rewrite (resolve_local_ip_addr_hit _ _ _ Hlook) in Hres. discriminate.
    + destruct (resolve_local_ip_addr_miss _ w Hlook) as [Hsent _].
      rewrite Hres in Hsent. exact Hsent.
Qed.

Lemma echo_request_without_route_raises_witness :
  resolve_ip_addr [xc0; xa8; x01; x36] quiet_world
  = (Ok None, (resolve_ip_addr [xc0; xa8; x01; x36] quiet_world).2)
  /\ send_echo_request [xc0; xa8; x01; x36] 1 1 quiet_world
     = (Raise (if decide (0 <= 1 < 65536 /\ 0 <= 1 < 65536)
               then TypeError else OverflowError),
        (resolve_ip_addr [xc0; xa8; x01; x36] quiet_world).2)
  /\ sent (resolve_ip_addr [xc0; xa8; x01; x36] quiet_world).2
     = sent quiet_world ++ [arp_broadcast (next_hop [xc0; xa8; x01; x36])].
Proof.
  assert (Hres : resolve_ip_addr [xc0; xa8; x01; x36] quiet_world
                 = (Ok None, (resolve_ip_addr [xc0; xa8; x01; x36] quiet_world).2))
    by reflexivity.
  split; [exact Hres|].
  exact (echo_request_without_route_raises [xc0; xa8; x01; x36] 1 1
           quiet_world _ Hres).
Defined.

(** C8 (as the spec states it) fails: on a silent network the resolution
    of 192.168.1.54 gives [None] after one second, and the echo request
    then returns nothing at all, it raises [TypeError]; the resolver's ARP
    broadcast has gone out on the wire. *)
Lemma echo_request_without_route_does_not_return :
  (resolve_ip_addr [xc0; xa8; x01; x36] quiet_world).1 = Ok None
  /\ (send_echo_request [xc0; xa8; x01; x36] 1 1 quiet_world).1
     = Raise TypeError
  /\ (forall v, (send_echo_request [xc0; xa8; x01; x36] 1 1 quiet_world).1
                <> Ok v)
  /\ sent (send_echo_request [xc0; xa8; x01; x36] 1 1 quiet_world).2
     = [arp_broadcast [xc0; xa8; x01; x36]]
  /\ sent (send_echo_request [xc0; xa8; x01; x36] 1 1 quiet_world).2
     <> sent quiet_world.
Proof.
  split; [reflexivity|]. split; [reflexivity|].
  split; [intros v; vm_compute; discriminate|].
  split; [reflexivity|]. vm_compute. discriminate.
Qed.

(** * Further properties of the code *)

(** ** Address codecs *)

Example format_mac_addr_cell :
  format_mac_addr [x01; x02; x03; x04; x05; x06] = "01:02:03:04:05:06"%string.
Proof. reflexivity. Qed.

Example decode_ip4_addr_cell :
  decode_ip4_addr [x0a; x00; x00; xfe] = "10.0.0.254"%string.
Proof. reflexivity. Qed.

Lemma remove_colons_chars (l : list ascii) :
  list_ascii_of_string (remove_colons (string_of_list_ascii l))
  = filter (fun c => c <> ":"%char) l.
Proof.
  unfold remove_colons. rewrite !list_ascii_of_string_of_list_ascii. reflexivity.
Qed.

Lemma filter_colons_join (bs : bytes) :
  filter (fun c => c <> ":"%char) (join_chars [":"%char] (format_02x <$> bs))
  = mjoin (format_02x <$> bs).
Proof.
  induction bs as [|b bs IH]; [reflexivity|].
  assert (Hb : filter (fun c => c <> ":"%char) (format_02x b) = format_02x b)
    by (destruct b; reflexivity).
  destruct bs as [|b' bs].
  - cbn [fmap list_fmap join_chars mjoin list_join]. rewrite app_nil_r. exact Hb.
  - change (join_chars [":"%char] (format_02x <$> b :: b' :: bs))
      with (format_02x b
              ++ ":"%char :: join_chars [":"%char] (format_02x <$> b' :: bs)).
    change (mjoin (format_02x <$> b :: b' :: bs))
      with (format_02x b ++ mjoin (format_02x <$> b' :: bs)).
    rewrite filter_app, Hb. f_equal.
    rewrite filter_cons_False by (intros Hne; apply Hne; reflexivity).
    exact IH.
Qed.

Lemma fromhex_chars_format_02x (b : byte) (rest : list ascii) :
  fromhex_chars (format_02x b ++ rest)
  = (tail <~ fromhex_chars rest ;; Ok (b :: tail)).
Proof. destruct b; reflexivity. Qed.

(** X1: formatting a byte string as a MAC address and encoding the text
    again gives the byte string back, for byte strings of every length. *)
Theorem encode_mac_addr_format_mac_addr (mac_address : bytes) :
  encode_mac_addr (format_mac_addr mac_address) = Ok mac_address.
Proof.
  unfold encode_mac_addr, bytes_fromhex, format_mac_addr.
  rewrite remove_colons_chars, filter_colons_join.
  induction mac_address as [|b bs IH]; [reflexivity|].
  change (mjoin (format_02x <$> b :: bs))
    with (format_02x b ++ mjoin (format_02x <$> bs)).
  rewrite fromhex_chars_format_02x, IH. reflexivity.
Qed.

Lemma split_dots_nonempty (s : list ascii) : split_dots s <> [].
Proof.
  destruct s as [|c s]; [discriminate|]. cbn [split_dots].
  destruct (decide (c = "."%char)); [discriminate|].
  destruct (split_dots s); discriminate.
Qed.

Lemma split_dots_group (g rest : list ascii) :
  "."%char ∉ g ->
  split_dots (g ++ "."%char :: rest) = g :: split_dots rest.
Proof.
  induction g as [|c g IH]; intros Hg.
  - cbn [app split_dots]. rewrite decide_True by reflexivity. reflexivity.
  - cbn [app split_dots].
    rewrite decide_False by (intros ->; apply Hg; apply list_elem_of_here).
    rewrite IH by (intros Hin; apply Hg; apply list_elem_of_further; exact Hin).
    reflexivity.
Qed.

Lemma split_dots_last (g : list ascii) : "."%char ∉ g -> split_dots g = [g].
Proof.
  induction g as [|c g IH]; intros Hg; [reflexivity|].
  cbn [split_dots].
  rewrite decide_False by (intros ->; apply Hg; apply list_elem_of_here).
  rewrite IH by (intros Hin; apply Hg; apply list_elem_of_further; exact Hin).
  reflexivity.
Qed.

Lemma split_dots_join (groups : list (list ascii)) :
  groups <> [] ->
  Forall (fun g => "."%char ∉ g) groups ->
  split_dots (join_chars ["."%char] groups) = groups.
Proof.
  induction groups as [|g groups IH]; intros Hne Hdots; [contradiction|].
  apply Forall_cons in Hdots as [Hg Hrest].
  cbn [join_chars]. destruct groups as [|g' groups].
  - apply split_dots_last. exact Hg.
  - change (["."%char] ++ ?l) with ("."%char :: l).
    rewrite split_dots_group by exact Hg.
    f_equal. apply IH; [discriminate | exact Hrest].
Qed.

Lemma format_d_no_dot (b : byte) : "."%char ∉ format_d b.
Proof.
  apply (bool_decide_unpack _). destruct b; vm_compute; exact I.
Qed.

Lemma int_of_str_format_d (b : byte) :
  int_of_str (format_d b) = Ok (byte_to_Z b).
Proof. destruct b; reflexivity. Qed.

(** X2: formatting a non-empty byte string as a dotted-decimal address and
    encoding the text again gives the byte string back; for the empty
    byte string the text is empty and encoding it raises [ValueError]. *)
Theorem encode_ip4_addr_decode_ip4_addr (ip4_addr : bytes) :
  encode_ip4_addr (decode_ip4_addr ip4_addr)
  = if decide (ip4_addr = []) then Raise ValueError else Ok ip4_addr.
Proof.
  unfold encode_ip4_addr, decode_ip4_addr.
  rewrite list_ascii_of_string_of_list_ascii.
  destruct (decide (ip4_addr = [])) as [->|Hne]; [reflexivity|].
  rewrite split_dots_join.
  - clear Hne. induction ip4_addr as [|b bs IH]; [reflexivity|].
    cbn [fmap list_fmap bytes_of_ints].
    rewrite int_of_str_format_d. cbn [rbind].
    rewrite decide_True by (apply byte_to_Z_range).
    change (list_fmap _ _ int_of_str (list_fmap _ _ format_d bs))
      with (int_of_str <$> (format_d <$> bs)).
    rewrite IH. cbn [rbind]. rewrite byte_of_to_Z. reflexivity.
  - destruct ip4_addr; [contradiction | discriminate].
  - apply Forall_fmap. apply Forall_forall. intros b _. apply format_d_no_dot.
Qed.

(** ** Ethernet frames *)

Lemma decode_ethernet_frame_built
    (dst_addr src_addr ethertype payload : bytes) :
  length dst_addr = 6%nat ->
  length src_addr = 6%nat ->
  length ethertype = 2%nat ->
  decode_ethernet_frame (ethernet_frame dst_addr src_addr ethertype payload)
  = {| EthernetFrame.dst_addr := dst_addr;
       EthernetFrame.src_addr := src_addr;
       EthernetFrame.ethertype := ethertype;
       EthernetFrame.payload := payload |}.
Proof.
  intros Hd Hs He.
  destruct dst_addr as [|a0 [|a1 [|a2 [|a3 [|a4 [|a5 [|]]]]]]];
    try discriminate Hd.
  destruct src_addr as [|b0 [|b1 [|b2 [|b3 [|b4 [|b5 [|]]]]]]];
    try discriminate Hs.
  destruct ethertype as [|e0 [|e1 [|]]]; try discriminate He.
  reflexivity.
Qed.

(** X3: a frame built from 6-byte addresses and a 2-byte ethertype decodes
    to exactly the four parts it was built from, for every payload,
    the empty one included. *)
Theorem decode_ethernet_frame_ethernet_frame
    (dst_addr src_addr ethertype payload : bytes) :
  length dst_addr = 6%nat ->
  length src_addr = 6%nat ->
  length ethertype = 2%nat ->
  decode_ethernet_frame (ethernet_frame dst_addr src_addr ethertype payload)
  = {| EthernetFrame.dst_addr := dst_addr;
       EthernetFrame.src_addr := src_addr;
       EthernetFrame.ethertype := ethertype;
       EthernetFrame.payload := payload |}.
Proof.
  intros Hd Hs He.
  exact (decode_ethernet_frame_built dst_addr src_addr ethertype payload
           Hd Hs He).
Qed.

Lemma decode_ethernet_frame_ethernet_frame_witness :
  decode_ethernet_frame
    (ethernet_frame BROADCAST_MAC_ADDR MY_MAC_ADDR CUST
       (list_byte_of_string "Hello, world!"))
  = {| EthernetFrame.dst_addr := BROADCAST_MAC_ADDR;
       EthernetFrame.src_addr := MY_MAC_ADDR;
       EthernetFrame.ethertype := CUST;
       EthernetFrame.payload := list_byte_of_string "Hello, world!" |}.
Proof.
  apply (decode_ethernet_frame_ethernet_frame BROADCAST_MAC_ADDR MY_MAC_ADDR
           CUST (list_byte_of_string "Hello, world!")); reflexivity.
Defined.

(** ** The subnet test on arbitrary byte strings *)

(** X4: [is_on_same_subnet] never checks the length of its argument: a
    byte string is reported on the subnet exactly when it has at least 4
    bytes and starts with 192.168.1; the fourth byte and anything after it
    play no part, and a string of fewer than 4 bytes is never on the
    subnet. *)
Theorem is_on_same_subnet_any_length (ip_addr : bytes) :
  is_on_same_subnet ip_addr
  = bool_decide ((4 <= length ip_addr)%nat /\ take 3 ip_addr = [xc0; xa8; x01]).
Proof.
  destruct ip_addr as [|a [|b [|c [|d rest]]]].
  1-4: rewrite (bool_decide_eq_false_2 (_ /\ _)) by (cbn; lia);
       apply bool_decide_eq_false_2; intros Heq;
       apply (f_equal length) in Heq; discriminate Heq.
  assert (Hcut : is_on_same_subnet (a :: b :: c :: d :: rest)
                 = is_on_same_subnet [a; b; c; d])
    by (destruct rest; reflexivity).
  rewrite Hcut, is_on_same_subnet_4. apply bool_decide_ext.
  cbn [take length]. split.
  - intros (-> & -> & ->). split; [lia | reflexivity].
  - intros [_ [= -> -> ->]]. auto.
Qed.

(** X5: every address outside the subnet is resolved as the gateway, so
    one successful resolution serves them all: after [resolve_ip_addr]
    succeeded for one outside address, it answers any other outside
    address with the same MAC address and leaves the world untouched. *)
Theorem outside_addresses_share_the_gateway_entry
    (first other mac : bytes) (w w' : World) :
  is_on_same_subnet first = false ->
  is_on_same_subnet other = false ->
  resolve_ip_addr first w = (Ok (Some mac), w') ->
  resolve_ip_addr other w' = (Ok (Some mac), w').
Proof.
  intros Hfirst Hother Hres.
  rewrite resolve_ip_addr_next_hop in Hres. rewrite resolve_ip_addr_next_hop.
  unfold next_hop in *. rewrite Hfirst in Hres. rewrite Hother.
  apply resolve_local_ip_addr_hit.
  exact (resolve_local_ip_addr_stored _ _ _ _ Hres).
Qed.

Lemma outside_addresses_share_the_gateway_entry_witness :
  resolve_ip_addr [x01; x01; x01; x01] router_resolved
  = (Ok (Some [x00; x1f; x16; xf8; x37; x86]), router_resolved).
Proof.
  apply (outside_addresses_share_the_gateway_entry
           [x08; x08; x08; x08] [x01; x01; x01; x01]
           [x00; x1f; x16; xf8; x37; x86] router_answers router_resolved);
    reflexivity.
Defined.

(** ** More on the checksum *)

(** X6: the checksum does not depend on the order of the 16-bit words:
    two even-length blocks may be exchanged. *)
Theorem calculate_checksum_blocks_commute (a b : bytes) :
  Nat.Even (length a) ->
  Nat.Even (length b) ->
  calculate_checksum (a ++ b) = calculate_checksum (b ++ a).
Proof.
  intros Ha Hb. rewrite !calculate_checksum_words.
  rewrite (be_words_app a b Ha), (be_words_app b a Hb), !sum_Z_app.
  rewrite (Z.add_comm (sum_Z (be_words a))). reflexivity.
Qed.

Lemma calculate_checksum_blocks_commute_witness :
  calculate_checksum ([x12; x34] ++ [xab; xcd; xff; xff])
  = calculate_checksum ([xab; xcd; xff; xff] ++ [x12; x34]).
Proof.
  apply (calculate_checksum_blocks_commute [x12; x34] [xab; xcd; xff; xff]).
  - exists 1%nat. reflexivity.
  - exists 2%nat. reflexivity.
Defined.

Lemma sum_words_zeros (n : nat) : sum_Z (be_words (replicate n x00)) = 0.
Proof.
  induction n as [n IH] using lt_wf_ind.
  destruct n as [|[|n]]; [reflexivity | reflexivity |].
  cbn [replicate be_words]. unfold sum_Z. cbn [foldr].
  fold (sum_Z (be_words (replicate n x00))). rewrite IH by lia. reflexivity.
Qed.

(** X7: zero bytes appended to an even-length buffer, such as the padding
    Ethernet adds to a short frame, leave the checksum unchanged. *)
Theorem calculate_checksum_zero_padding (h : bytes) (n : nat) :
  Nat.Even (length h) ->
  calculate_checksum (h ++ replicate n x00) = calculate_checksum h.
Proof.
  intros Hh. rewrite !calculate_checksum_words.
  rewrite be_words_app by exact Hh.
  rewrite sum_Z_app, sum_words_zeros, Z.add_0_r. reflexivity.
Qed.

Lemma calculate_checksum_zero_padding_witness :
  calculate_checksum
    ((expect [] (bytes_fromhex "0000 aa8c 0001 0001")
        ++ list_byte_of_string "Python!!") ++ replicate 10 x00)
  = calculate_checksum
      (expect [] (bytes_fromhex "0000 aa8c 0001 0001")
         ++ list_byte_of_string "Python!!").
Proof.
  apply (calculate_checksum_zero_padding
           (expect [] (bytes_fromhex "0000 aa8c 0001 0001")
              ++ list_byte_of_string "Python!!") 10).
  exists 8%nat. reflexivity.
Defined.

(** Overwriting one byte moves the sum of words by the difference of the
    two bytes, weighted by the byte's place in its word. *)
Lemma sum_words_insert (h : bytes) (i : nat) (x y : byte) :
  h !! i = Some x ->
  exists k, (k = 1 \/ k = 256)
    /\ sum_Z (be_words (<[i := y]> h))
       = sum_Z (be_words h) + k * (byte_to_Z y - byte_to_Z x).
Proof.
  revert i. induction h as [h IH] using (induction_ltof1 _ (@length byte)).
  unfold ltof in IH. intros i Hi.
  destruct h as [|a [|b t]].
  - discriminate Hi.
  - destruct i as [|i]; [|discriminate Hi]. injection Hi as ->.
    exists 1. split; [auto|]. cbn. lia.
  - destruct i as [|[|i]].
    + injection Hi as ->. exists 256. split; [auto|].
      cbn [insert list_insert be_words]. unfold sum_Z. cbn [foldr]. lia.
    + injection Hi as ->. exists 1. split; [auto|].
      cbn [insert list_insert be_words]. unfold sum_Z. cbn [foldr]. lia.
    + cbn [lookup list_lookup] in Hi.
      destruct (IH t ltac:(simpl; lia) i Hi) as (k & Hk & Hsum).
      exists k. split; [exact Hk|].
      change (<[S (S i) := y]> (a :: b :: t)) with (a :: b :: <[i := y]> t).
      cbn [be_words]. unfold sum_Z in *. cbn [foldr]. rewrite Hsum. lia.
Qed.

(** X8: a buffer of at most 128 KiB that verifies (its checksum is 0)
    stops verifying as soon as any single byte of it is changed. *)
Theorem calculate_checksum_detects_one_changed_byte
    (h : bytes) (i : nat) (x y : byte) :
  Z.of_nat (length h) <= 128 * 1024 ->
  calculate_checksum h = 0 ->
  h !! i = Some x ->
  y <> x ->
  calculate_checksum (<[i := y]> h) <> 0.
Proof.
  intros Hlen Hok Hi Hne.
  assert (Hlen' : Z.of_nat (length (<[i := y]> h)) <= 131072)
    by (rewrite length_insert; lia).
  destruct (fold16_twice _ (sum_words_lt_2_32 h ltac:(lia)))
    as (Hf & (k0 & Hk0pos & Hk0) & _).
  destruct (fold16_twice _ (sum_words_lt_2_32 _ Hlen'))
    as (Hf' & (k1 & Hk1pos & Hk1) & _).
  rewrite calculate_checksum_words, lnot_mask16 in Hok by exact Hf.
  rewrite calculate_checksum_words, lnot_mask16 by exact Hf'.
  destruct (sum_words_insert h i x y Hi) as (k & Hk & Hsum).
  pose proof (byte_to_Z_range x). pose proof (byte_to_Z_range y).
  assert (byte_to_Z y <> byte_to_Z x).
  { intros Heq. apply Hne.
    rewrite <- (byte_of_to_Z y), <- (byte_of_to_Z x), Heq. reflexivity. }
  destruct Hk as [-> | ->]; lia.
Qed.

Lemma calculate_checksum_detects_one_changed_byte_witness :
  calculate_checksum
    (<[9%nat := x11]>
       (expect [] (bytes_fromhex "4500 0024 0000 4000 4001 b68d c0a8 01fa c0a8 0101")))
  <> 0.
Proof.
  apply (calculate_checksum_detects_one_changed_byte
           (expect [] (bytes_fromhex "4500 0024 0000 4000 4001 b68d c0a8 01fa c0a8 0101"))
           9 x01 x11).
  - simpl. lia.
  - reflexivity.
  - reflexivity.
  - discriminate.
Defined.

(** ** The IPv4 encoder *)

(** X9: [ip4_packet] fails in exactly two ways, whatever the addresses:
    with [OverflowError] when the payload is longer than 65515 bytes (the
    total length no longer fits 16 bits; this is checked first), and with
    [ValueError] when the protocol number is outside [range(256)].  In
    every other case it returns a packet; the lengths of the addresses
    are never checked. *)
Theorem ip4_packet_failures (src_ip_addr dst_ip_addr : bytes) (protocol : Z)
    (payload : bytes) :
  match ip4_packet src_ip_addr dst_ip_addr protocol payload with
  | Ok _ => Z.of_nat (length payload) <= 65515 /\ 0 <= protocol < 256
  | Raise e =>
      (65515 < Z.of_nat (length payload) /\ e = OverflowError)
      \/ (Z.of_nat (length payload) <= 65515
          /\ ~ 0 <= protocol < 256 /\ e = ValueError)
  end.
Proof.
  rewrite ip4_packet_steps.
  destruct (decide (0 <= 20 + Z.of_nat (length payload) < 65536)) as [Hfit|Hbig].
  - rewrite (int_to_bytes_2 _ Hfit). cbn [rbind].
    unfold setitem at 1. cbn [length app replicate].
    destruct (decide (9 < 20)%nat) as [_|Hno]; [|exfalso; lia].
    destruct (decide (0 <= protocol < 256)) as [Hp|Hp]; cbn [rbind].
    + rewrite int_to_bytes_2 by apply calculate_checksum_16_bits.
      cbn [rbind]. split; [lia | exact Hp].
    + right. split; [lia|]. split; [exact Hp | reflexivity].
  - rewrite (int_to_bytes_2_overflow _ Hbig). cbn [rbind].
    left. split; [lia | reflexivity].
Qed.

(** X10: a packet built by [ip4_packet] from 4-byte addresses is 20 bytes
    longer than its payload and decodes to what was encoded: version 4
    with header length 5, total length 20 plus the payload length,
    identification 0, the don't-fragment flag, TTL 64, the protocol
    number, both addresses and the payload. *)
Theorem decode_ipv4_packet_ip4_packet (src_ip_addr dst_ip_addr : bytes)
    (protocol : Z) (payload : bytes) :
  length src_ip_addr = 4%nat ->
  length dst_ip_addr = 4%nat ->
  0 <= protocol < 256 ->
  Z.of_nat (length payload) <= 65515 ->
  exists packet p,
    ip4_packet src_ip_addr dst_ip_addr protocol payload = Ok packet
    /\ length packet = (20 + length payload)%nat
    /\ decode_ipv4_packet packet = Ok p
    /\ Ipv4Packet.version_ihl p = 0x45
    /\ Ipv4Packet.type p = 0
    /\ int_from_bytes (Ipv4Packet.length p) = 20 + Z.of_nat (length payload)
    /\ Ipv4Packet.id p = [x00; x00]
    /\ Ipv4Packet.flags_offset p = [x40; x00]
    /\ Ipv4Packet.ttl p = 64
    /\ Ipv4Packet.protocol p = protocol
    /\ Ipv4Packet.src_addr p = src_ip_addr
    /\ Ipv4Packet.dst_addr p = dst_ip_addr
    /\ Ipv4Packet.payload p = payload.
Proof.
  intros Hs Hd Hp Hn.
  pose proof (ip4_packet_ok src_ip_addr dst_ip_addr protocol payload
                Hs Hd Hp Hn) as Hpacket.
  cbv zeta in Hpacket.
  destruct src_ip_addr as [|s0 [|s1 [|s2 [|s3 [|]]]]]; try discriminate Hs.
  destruct dst_ip_addr as [|d0 [|d1 [|d2 [|d3 [|]]]]]; try discriminate Hd.
  set (header := setslice 10 12 _ _) in Hpacket.
  exists (header ++ payload). eexists.
  split; [exact Hpacket|].
  split; [rewrite length_app; reflexivity|].
  split; [reflexivity|].
  cbn [Ipv4Packet.version_ihl Ipv4Packet.type Ipv4Packet.length Ipv4Packet.id
       Ipv4Packet.flags_offset Ipv4Packet.ttl Ipv4Packet.protocol
       Ipv4Packet.src_addr Ipv4Packet.dst_addr Ipv4Packet.payload].
  split; [reflexivity|]. split; [reflexivity|].
  split; [exact (int_from_to_bytes_2 (20 + Z.of_nat (length payload)) ltac:(lia))|].
  split; [reflexivity|]. split; [reflexivity|]. split; [reflexivity|].
  split; [exact (byte_to_of_Z _ Hp)|].
  split; [reflexivity|]. split; reflexivity.
Qed.

Lemma decode_ipv4_packet_ip4_packet_witness :
  exists packet p,
    ip4_packet MY_IP_ADDR ROUTER_IP_ADDR 253
      (list_byte_of_string "Hello, world!") = Ok packet
    /\ length packet = (20 + length (list_byte_of_string "Hello, world!"))%nat
    /\ decode_ipv4_packet packet = Ok p
    /\ Ipv4Packet.version_ihl p = 0x45
    /\ Ipv4Packet.type p = 0
    /\ int_from_bytes (Ipv4Packet.length p)
       = 20 + Z.of_nat (length (list_byte_of_string "Hello, world!"))
    /\ Ipv4Packet.id p = [x00; x00]
    /\ Ipv4Packet.flags_offset p = [x40; x00]
    /\ Ipv4Packet.ttl p = 64
    /\ Ipv4Packet.protocol p = 253
    /\ Ipv4Packet.src_addr p = MY_IP_ADDR
    /\ Ipv4Packet.dst_addr p = ROUTER_IP_ADDR
    /\ Ipv4Packet.payload p = list_byte_of_string "Hello, world!".
Proof.
  apply (decode_ipv4_packet_ip4_packet MY_IP_ADDR ROUTER_IP_ADDR 253
           (list_byte_of_string "Hello, world!")).
  - reflexivity.
  - reflexivity.
  - lia.
  - simpl. lia.
Defined.

(** ** The ICMP encoder *)

(** X11: [icmp_ping_request_packet] fails, with [OverflowError], exactly
    when the identifier or the sequence number does not fit 16 bits
    (negative numbers included); otherwise it returns 16 bytes. *)
Theorem icmp_ping_request_packet_failures (identifier sequence_no : Z) :
  match icmp_ping_request_packet identifier sequence_no with
  | Ok message =>
      0 <= identifier < 65536 /\ 0 <= sequence_no < 65536
      /\ length message = 16%nat
  | Raise e =>
      e = OverflowError
      /\ ~ (0 <= identifier < 65536 /\ 0 <= sequence_no < 65536)
  end.
Proof.
  destruct (decide (0 <= identifier < 65536 /\ 0 <= sequence_no < 65536))
    as [[Hi Hs]|Hno].
  - rewrite (icmp_ping_request_packet_ok _ _ Hi Hs). cbv zeta.
    split; [exact Hi|]. split; [exact Hs | reflexivity].
  - rewrite (icmp_ping_request_packet_overflow _ _ Hno).
    split; [reflexivity | exact Hno].
Qed.

(** X12: the echo request [icmp_ping_request_packet] returns carries a
    valid checksum: [calculate_checksum] over the whole 16-byte message is
    0, and the message decodes, on its own, to type 8, code 0, the
    identifier, the sequence number and the payload "Python!!". *)
Theorem icmp_ping_request_packet_verifies (identifier sequence_no : Z) :
  0 <= identifier < 65536 ->
  0 <= sequence_no < 65536 ->
  exists message p,
    icmp_ping_request_packet identifier sequence_no = Ok message
    /\ calculate_checksum message = 0
    /\ decode_icmp_packet message = Ok p
    /\ IcmpPacket.type p = 8
    /\ IcmpPacket.code p = 0
    /\ IcmpPacket.checksum p = slice 2 4 message
    /\ IcmpPacket.identifier p = identifier
    /\ IcmpPacket.sequence_no p = sequence_no
    /\ IcmpPacket.payload p = list_byte_of_string "Python!!".
Proof.
  intros Hi Hs.
  rewrite (icmp_ping_request_packet_ok _ _ Hi Hs). cbv zeta.
  set (u := icmp_message_unsummed identifier sequence_no).
  destruct (checksum_embedded_field u 1) as (field & Hf & _ & Hz);
    [unfold u; simpl; lia | unfold u; simpl; lia |].
  change (setslice (2 * 1) (2 * 1 + 2) [x00; x00] u) with u in Hf.
  rewrite int_to_bytes_2 in Hf by apply calculate_checksum_16_bits.
  injection Hf as <-.
  eexists. eexists. split; [reflexivity|].
  split; [exact Hz|]. split; [reflexivity|].
  cbn [IcmpPacket.type IcmpPacket.code IcmpPacket.checksum
       IcmpPacket.identifier IcmpPacket.sequence_no IcmpPacket.payload].
  split; [reflexivity|]. split; [reflexivity|]. split; [reflexivity|].
  split; [exact (int_from_to_bytes_2 identifier Hi)|].
  split; [exact (int_from_to_bytes_2 sequence_no Hs) | reflexivity].
Qed.

Lemma icmp_ping_request_packet_verifies_witness :
  exists message p,
    icmp_ping_request_packet 1 1 = Ok message
    /\ calculate_checksum message = 0
    /\ decode_icmp_packet message = Ok p
    /\ IcmpPacket.type p = 8
    /\ IcmpPacket.code p = 0
    /\ IcmpPacket.checksum p = slice 2 4 message
    /\ IcmpPacket.identifier p = 1
    /\ IcmpPacket.sequence_no p = 1
    /\ IcmpPacket.payload p = list_byte_of_string "Python!!".
Proof.
  apply (icmp_ping_request_packet_verifies 1 1); lia.
Defined.

(** ** More on the receive loops *)

Section WaitLoopMore.
Context {A : Type} (test : bytes -> result (option A)).

Lemma wait_loop_negative (rx : list (Q * bytes)) (time_left elapsed : Q) :
  (time_left < 0)%Q ->
  wait_loop test rx time_left elapsed = (Raise ValueError, rx, elapsed).
Proof.
  intros Hneg. destruct rx as [|[t data] rx]; cbn [wait_loop];
    destruct (Qlt_le_dec time_left 0); first [reflexivity | lra].
Qed.

(** What the loop returns was produced by the test on an arrived frame. *)
Lemma wait_loop_some (rx : list (Q * bytes)) (time_left elapsed : Q) (a : A) :
  (wait_loop test rx time_left elapsed).1.1 = Ok (Some a) ->
  exists t data, (t, data) ∈ rx /\ test data = Ok (Some a).
Proof.
  intros Hres. destruct (Qlt_le_dec time_left 0) as [Hneg|Hpos].
  - rewrite (wait_loop_negative _ _ _ Hneg) in Hres. discriminate Hres.
  - destruct (wait_loop_result test rx time_left elapsed Hpos)
      as [Hnone|(t & data & Hin & Htest & _)].
    + rewrite Hnone in Hres. discriminate Hres.
    + exists t, data. split; [exact Hin|]. rewrite Htest. exact Hres.
Qed.

(** The first frame the test does not pass over decides the result, and
    the frames after it stay on the wire. *)
Lemma wait_loop_decided (rx : list (Q * bytes)) (time_left elapsed : Q) :
  (0 <= time_left)%Q ->
  (wait_loop test rx time_left elapsed).1.1 <> Ok None ->
  exists pre t data,
    rx = pre ++ (t, data) :: (wait_loop test rx time_left elapsed).1.2
    /\ Forall (fun f => test f.2 = Ok None) pre
    /\ test data = (wait_loop test rx time_left elapsed).1.1.
Proof.
  revert time_left elapsed.
  induction rx as [|[t data] rx IH]; intros time_left elapsed Hpos.
  - cbn [wait_loop]. destruct (Qlt_le_dec time_left 0); [lra|].
    cbn [fst snd]. contradiction.
  - cbn [wait_loop].
    destruct (Qlt_le_dec time_left 0); [lra|].
    destruct (Qle_bool t time_left) eqn:Ht; [|cbn [fst snd]; contradiction].
    apply Qle_bool_iff in Ht.
    destruct (test data) as [[a|]|e] eqn:Htest.
    + cbn [fst snd]. intros _. exists [], t, data.
      split; [reflexivity|]. split; [constructor | exact Htest].
    + destruct (Qle_bool (time_left - t) 0) eqn:Hleft;
        [cbn [fst snd]; contradiction|].
      intros Hres.
      assert (Hgt : (0 <= time_left - t)%Q) by lra.
      destruct (IH _ _ Hgt Hres) as (pre & t' & data' & Hrx & Hpre & Hlast).
      exists ((t, data) :: pre), t', data'.
      split; [cbn [app]; f_equal; exact Hrx|].
      split; [constructor; assumption | exact Hlast].
    + cbn [fst snd]. intros _. exists [], t, data.
      split; [reflexivity|]. split; [constructor | exact Htest].
Qed.

Lemma wait_loop_some_first (rx : list (Q * bytes)) (time_left elapsed : Q)
    (a : A) :
  (wait_loop test rx time_left elapsed).1.1 = Ok (Some a) ->
  exists pre t data,
    rx = pre ++ (t, data) :: (wait_loop test rx time_left elapsed).1.2
    /\ Forall (fun f => test f.2 = Ok None) pre
    /\ test data = Ok (Some a).
Proof.
  intros Hres. destruct (Qlt_le_dec time_left 0) as [Hneg|Hpos].
  - rewrite (wait_loop_negative _ _ _ Hneg) in Hres. discriminate Hres.
  - destruct (wait_loop_decided rx time_left elapsed Hpos)
      as (pre & t & data & Hrx & Hpre & Hlast).
    + rewrite Hres. discriminate.
    + exists pre, t, data. split; [exact Hrx|]. split; [exact Hpre|].
      rewrite Hlast. exact Hres.
Qed.
End WaitLoopMore.

Lemma arp_response_verdict_some (sender_ip_addr data : bytes) (p : ArpPacket.t) :
  arp_response_verdict sender_ip_addr data = Some p ->
  EthernetFrame.dst_addr (decode_ethernet_frame data) = MY_MAC_ADDR
  /\ EthernetFrame.ethertype (decode_ethernet_frame data) = ARP
  /\ p = decode_arp_packet (EthernetFrame.payload (decode_ethernet_frame data))
  /\ ArpPacket.spa p = sender_ip_addr.
Proof.
  unfold arp_response_verdict. cbv zeta.
  destruct (bool_decide (_ = MY_MAC_ADDR)) eqn:Hdst; [|discriminate].
  destruct (bool_decide (_ = ARP)) eqn:Htype; [|discriminate].
  cbn [andb].
  destruct (bool_decide (_ = sender_ip_addr)) eqn:Hspa; [|discriminate].
  intros [= <-].
  apply bool_decide_eq_true_1 in Hdst, Htype, Hspa. auto.
Qed.

(** X13: an ARP packet returned by [receive_arp_response] was decoded from
    a frame that arrived on the wire, addressed to this host's MAC address
    with the ARP ethertype, and its sender protocol address is the address
    that was asked for. *)
Theorem receive_arp_response_sound (sender_ip_addr : bytes) (timeout : Q)
    (w : World) (p : ArpPacket.t) :
  (receive_arp_response sender_ip_addr timeout w).1 = Ok (Some p) ->
  ArpPacket.spa p = sender_ip_addr
  /\ exists t data,
      (t, data) ∈ pending w
      /\ EthernetFrame.dst_addr (decode_ethernet_frame data) = MY_MAC_ADDR
      /\ EthernetFrame.ethertype (decode_ethernet_frame data) = ARP
      /\ p = decode_arp_packet (EthernetFrame.payload (decode_ethernet_frame data)).
Proof.
  rewrite receive_arp_response_wait. cbv zeta. cbn [fst].
  intros Hres. apply wait_loop_some in Hres as (t & data & Hin & Htest).
  injection Htest as Htest.
  apply arp_response_verdict_some in Htest as (Hdst & Htype & Hp & Hspa).
  split; [exact Hspa|]. exists t, data. auto.
Qed.

Lemma receive_arp_response_sound_witness :
  ArpPacket.spa
    (decode_arp_packet
       (EthernetFrame.payload (decode_ethernet_frame router_arp_reply)))
  = ROUTER_IP_ADDR
  /\ exists t data,
      (t, data) ∈ pending router_answers
      /\ EthernetFrame.dst_addr (decode_ethernet_frame data) = MY_MAC_ADDR
      /\ EthernetFrame.ethertype (decode_ethernet_frame data) = ARP
      /\ decode_arp_packet
           (EthernetFrame.payload (decode_ethernet_frame router_arp_reply))
         = decode_arp_packet (EthernetFrame.payload (decode_ethernet_frame data)).
Proof.
  apply (receive_arp_response_sound ROUTER_IP_ADDR 1 router_answers).
  reflexivity.
Defined.

Lemma echo_reply_verdict_some (src_ip_addr : bytes) (identifier sequence_no : Z)
    (data : bytes) (p : IcmpPacket.t) :
  echo_reply_verdict src_ip_addr identifier sequence_no data = Ok (Some p) ->
  EthernetFrame.dst_addr (decode_ethernet_frame data) = MY_MAC_ADDR
  /\ EthernetFrame.ethertype (decode_ethernet_frame data) = IPV4
  /\ exists ipv4_packet,
      decode_ipv4_packet (EthernetFrame.payload (decode_ethernet_frame data))
      = Ok ipv4_packet
      /\ Ipv4Packet.dst_addr ipv4_packet = MY_IP_ADDR
      /\ Ipv4Packet.src_addr ipv4_packet = src_ip_addr
      /\ Ipv4Packet.protocol ipv4_packet = 1
      /\ decode_icmp_packet (Ipv4Packet.payload ipv4_packet) = Ok p
      /\ IcmpPacket.identifier p = identifier
      /\ IcmpPacket.sequence_no p = sequence_no.
Proof.
  unfold echo_reply_verdict. cbv zeta.
  destruct (bool_decide (_ = MY_MAC_ADDR)) eqn:Hdst; [|discriminate].
  destruct (bool_decide (_ = IPV4)) eqn:Htype; [|discriminate].
  cbn [andb].
  destruct (decode_ipv4_packet _) as [ipv4_packet|e] eqn:Hip;
    [|discriminate].
  cbn [rbind].
  destruct (bool_decide (_ = MY_IP_ADDR)) eqn:Hto; [|discriminate].
  destruct (bool_decide (_ = src_ip_addr)) eqn:Hfrom; [|discriminate].
  destruct (bool_decide (_ = 1)) eqn:Hproto; [|discriminate].
  cbn [andb].
  destruct (decode_icmp_packet _) as [icmp_packet|e] eqn:Hicmp;
    [|discriminate].
  cbn [rbind].
  destruct (bool_decide (_ = identifier)) eqn:Hid; [|discriminate].
  destruct (bool_decide (_ = sequence_no)) eqn:Hseq; [|discriminate].
  cbn [andb]. intros [= <-].
  apply bool_decide_eq_true_1 in Hdst, Htype, Hto, Hfrom, Hproto, Hid, Hseq.
  split; [exact Hdst|]. split; [exact Htype|].
  exists ipv4_packet. auto 10.
Qed.

(** X14: an ICMP packet returned by [receive_echo_reply] carries the
    identifier and sequence number that were asked for, and was decoded
    from a frame that arrived on the wire for this host's MAC address with
    the IPv4 ethertype, whose IPv4 source is the address that was pinged,
    whose IPv4 destination is this host and whose protocol is 1. *)
Theorem receive_echo_reply_sound (src_ip_addr : bytes)
    (identifier sequence_no : Z) (timeout : Q) (w : World) (p : IcmpPacket.t) :
  (receive_echo_reply src_ip_addr identifier sequence_no timeout w).1
  = Ok (Some p) ->
  IcmpPacket.identifier p = identifier
  /\ IcmpPacket.sequence_no p = sequence_no
  /\ exists t data ipv4_packet,
      (t, data) ∈ pending w
      /\ EthernetFrame.dst_addr (decode_ethernet_frame data) = MY_MAC_ADDR
      /\ EthernetFrame.ethertype (decode_ethernet_frame data) = IPV4
      /\ decode_ipv4_packet (EthernetFrame.payload (decode_ethernet_frame data))
         = Ok ipv4_packet
      /\ Ipv4Packet.dst_addr ipv4_packet = MY_IP_ADDR
      /\ Ipv4Packet.src_addr ipv4_packet = src_ip_addr
      /\ Ipv4Packet.protocol ipv4_packet = 1
      /\ decode_icmp_packet (Ipv4Packet.payload ipv4_packet) = Ok p.
Proof.
  rewrite receive_echo_reply_wait. cbv zeta. cbn [fst].
  intros Hres. apply wait_loop_some in Hres as (t & data & Hin & Htest).
  apply echo_reply_verdict_some in Htest
    as (Hdst & Htype & ipv4_packet & Hip & Hto & Hfrom & Hproto & Hicmp & Hid & Hseq).
  split; [exact Hid|]. split; [exact Hseq|].
  exists t, data, ipv4_packet. auto 10.
Qed.

Lemma receive_echo_reply_sound_witness :
  exists p,
    (receive_echo_reply ROUTER_IP_ADDR 1 1 1
       (send_echo_request ROUTER_IP_ADDR 1 1 router_replies).2).1
    = Ok (Some p)
    /\ IcmpPacket.identifier p = 1
    /\ IcmpPacket.sequence_no p = 1
    /\ exists t data ipv4_packet,
        (t, data) ∈ pending (send_echo_request ROUTER_IP_ADDR 1 1 router_replies).2
        /\ EthernetFrame.dst_addr (decode_ethernet_frame data) = MY_MAC_ADDR
        /\ EthernetFrame.ethertype (decode_ethernet_frame data) = IPV4
        /\ decode_ipv4_packet (EthernetFrame.payload (decode_ethernet_frame data))
           = Ok ipv4_packet
        /\ Ipv4Packet.dst_addr ipv4_packet = MY_IP_ADDR
        /\ Ipv4Packet.src_addr ipv4_packet = ROUTER_IP_ADDR
        /\ Ipv4Packet.protocol ipv4_packet = 1
        /\ decode_icmp_packet (Ipv4Packet.payload ipv4_packet) = Ok p.
Proof.
  eexists. split; [reflexivity|].
  apply (receive_echo_reply_sound ROUTER_IP_ADDR 1 1 1
           (send_echo_request ROUTER_IP_ADDR 1 1 router_replies).2).
  reflexivity.
Defined.

(** X15: the response [receive_arp_response] returns is the first frame,
    in arrival order, that passes its test: every frame received before it
    was passed over, and the frames that arrive after it are left unread
    on the socket. *)
Theorem receive_arp_response_returns_the_first_match (sender_ip_addr : bytes)
    (timeout : Q) (w : World) (p : ArpPacket.t) :
  (receive_arp_response sender_ip_addr timeout w).1 = Ok (Some p) ->
  exists pre t data,
    pending w
    = pre ++ (t, data) :: pending (receive_arp_response sender_ip_addr timeout w).2
    /\ Forall (fun f => arp_response_verdict sender_ip_addr f.2 = None) pre
    /\ arp_response_verdict sender_ip_addr data = Some p.
Proof.
  rewrite receive_arp_response_wait. cbv zeta.
  cbn [fst snd pending after_receive]. intros Hres.
  destruct (wait_loop_some_first _ _ _ _ _ Hres)
    as (pre & t & data & Hrx & Hpre & Hlast).
  exists pre, t, data. split; [exact Hrx|]. split.
  - eapply Forall_impl; [exact Hpre|]. intros f Hf. cbn beta in Hf. congruence.
  - congruence.
Qed.

Lemma receive_arp_response_returns_the_first_match_witness :
  (receive_arp_response ROUTER_IP_ADDR 1 router_answers_late).1
  = Ok (Some (decode_arp_packet (drop 14 router_arp_reply)))
  /\ exists pre t data,
      pending router_answers_late
      = pre ++ (t, data)
          :: pending (receive_arp_response ROUTER_IP_ADDR 1 router_answers_late).2
      /\ Forall (fun f => arp_response_verdict ROUTER_IP_ADDR f.2 = None) pre
      /\ arp_response_verdict ROUTER_IP_ADDR data
         = Some (decode_arp_packet (drop 14 router_arp_reply)).
Proof.
  assert (Hres : (receive_arp_response ROUTER_IP_ADDR 1 router_answers_late).1
                 = Ok (Some (decode_arp_packet (drop 14 router_arp_reply))))
    by reflexivity.
  split; [exact Hres|].
  exact (receive_arp_response_returns_the_first_match ROUTER_IP_ADDR 1
           router_answers_late _ Hres).
Defined.

(** X16: in [receive_echo_reply], too, the first frame that is not passed
    over decides: its ICMP packet is returned, or the exception its
    decoder raises ends the loop; every frame received before it was
    passed over, and the frames that arrive after it are left unread. *)
Theorem receive_echo_reply_first_frame_decides (src_ip_addr : bytes)
    (identifier sequence_no : Z) (timeout : Q) (w : World) :
  (0 <= timeout)%Q ->
  (receive_echo_reply src_ip_addr identifier sequence_no timeout w).1
  <> Ok None ->
  exists pre t data,
    pending w
    = pre ++ (t, data)
        :: pending
             (receive_echo_reply src_ip_addr identifier sequence_no timeout w).2
    /\ Forall
         (fun f =>
            echo_reply_verdict src_ip_addr identifier sequence_no f.2 = Ok None)
         pre
    /\ echo_reply_verdict src_ip_addr identifier sequence_no data
       = (receive_echo_reply src_ip_addr identifier sequence_no timeout w).1.
Proof.
  rewrite receive_echo_reply_wait. cbv zeta.
  cbn [fst snd pending after_receive].
  apply wait_loop_decided.
Qed.

Lemma receive_echo_reply_first_frame_decides_witness :
  (0 <= 1)%Q
  /\ (receive_echo_reply ROUTER_IP_ADDR 1 1 1
        (send_echo_request ROUTER_IP_ADDR 1 1 router_replies).2).1
     <> Ok None
  /\ exists pre t data,
      pending (send_echo_request ROUTER_IP_ADDR 1 1 router_replies).2
      = pre ++ (t, data)
          :: pending
               (receive_echo_reply ROUTER_IP_ADDR 1 1 1
                  (send_echo_request ROUTER_IP_ADDR 1 1 router_replies).2).2
      /\ Forall (fun f => echo_reply_verdict ROUTER_IP_ADDR 1 1 f.2 = Ok None)
           pre
      /\ echo_reply_verdict ROUTER_IP_ADDR 1 1 data
         = (receive_echo_reply ROUTER_IP_ADDR 1 1 1
              (send_echo_request ROUTER_IP_ADDR 1 1 router_replies).2).1.
Proof.
  assert (Ht : (0 <= 1)%Q) by (vm_compute; discriminate).
  assert (Hres : (receive_echo_reply ROUTER_IP_ADDR 1 1 1
                    (send_echo_request ROUTER_IP_ADDR 1 1 router_replies).2).1
                 <> Ok None) by (vm_compute; discriminate).
  split; [exact Ht|]. split; [exact Hres|].
  exact (receive_echo_reply_first_frame_decides ROUTER_IP_ADDR 1 1 1
           (send_echo_request ROUTER_IP_ADDR 1 1 router_replies).2 Ht Hres).
Defined.

(** ** More on the resolver *)






(** X19: a resolution that misses the table and returns has sent exactly
    one frame, the ARP broadcast for the next hop, and has opened and
    closed one socket, whether or not an answer came. *)
Theorem resolve_ip_addr_on_a_miss (ip_addr : bytes) (w w' : World)
    (o : option bytes) :
  resolve_ip_addr ip_addr w = (Ok o, w') ->
  ARP_TABLE w !! next_hop ip_addr = None ->
  sent w' = sent w ++ [arp_broadcast (next_hop ip_addr)]
  /\ stdout w'
     = stdout w ++ ["Opening socket."%string; "Closing socket."%string].
Proof.
  rewrite resolve_ip_addr_next_hop. set (hop := next_hop ip_addr).
  unfold resolve_local_ip_addr. intros Hres Hmiss. rewrite Hmiss in Hres.
  set (w1 := socket_send _ (print _ w)) in Hres.
  rewrite receive_arp_response_wait in Hres. cbv zeta in Hres.
  destruct (wait_loop _ _ _ _) as [[r rx] t]. cbn [fst snd] in Hres.
  destruct r as [[response|]|e]; [| |discriminate Hres];
    injection Hres as _ <-;
    (split; [reflexivity|]);
    unfold w1;
    cbn [stdout print arp_table_store after_receive socket_send];
    rewrite <- app_assoc; reflexivity.
Qed.

Lemma resolve_ip_addr_on_a_miss_witness :
  resolve_ip_addr [x08; x08; x08; x08] router_answers_late
  = (Ok (Some router_mac_addr),
     (resolve_ip_addr [x08; x08; x08; x08] router_answers_late).2)
  /\ ARP_TABLE router_answers_late !! next_hop [x08; x08; x08; x08] = None
  /\ sent (resolve_ip_addr [x08; x08; x08; x08] router_answers_late).2
     = sent router_answers_late
         ++ [arp_broadcast (next_hop [x08; x08; x08; x08])]
  /\ stdout (resolve_ip_addr [x08; x08; x08; x08] router_answers_late).2
     = stdout router_answers_late
         ++ ["Opening socket."%string; "Closing socket."%string].
Proof.
  assert (Hres : resolve_ip_addr [x08; x08; x08; x08] router_answers_late
                 = (Ok (Some router_mac_addr),
                    (resolve_ip_addr [x08; x08; x08; x08]
                       router_answers_late).2))
    by reflexivity.
  assert (Hmiss : ARP_TABLE router_answers_late
                    !! next_hop [x08; x08; x08; x08] = None)
    by reflexivity.
  split; [exact Hres|]. split; [exact Hmiss|].
  exact (resolve_ip_addr_on_a_miss [x08; x08; x08; x08] router_answers_late
           _ _ Hres Hmiss).
Defined.

(** X20: the address [resolve_ip_addr] returns after a miss is the sender
    hardware address of a frame that arrived, addressed to this host's MAC
    address with the ARP ethertype, whose sender protocol address is the
    next hop; that address is what the table then holds for the next
    hop. *)
Theorem resolve_ip_addr_learns_from_a_response (ip_addr : bytes)
    (w w' : World) (mac : bytes) :
  resolve_ip_addr ip_addr w = (Ok (Some mac), w') ->
  ARP_TABLE w !! next_hop ip_addr = None ->
  ARP_TABLE w' = <[next_hop ip_addr := mac]> (ARP_TABLE w)
  /\ exists t data,
      (t, data) ∈ pending w
      /\ EthernetFrame.dst_addr (decode_ethernet_frame data) = MY_MAC_ADDR
      /\ EthernetFrame.ethertype (decode_ethernet_frame data) = ARP
      /\ ArpPacket.spa
           (decode_arp_packet (EthernetFrame.payload (decode_ethernet_frame data)))
         = next_hop ip_addr
      /\ mac
         = ArpPacket.sha
             (decode_arp_packet
                (EthernetFrame.payload (decode_ethernet_frame data))).
Proof.
  rewrite resolve_ip_addr_next_hop. set (hop := next_hop ip_addr).
  unfold resolve_local_ip_addr. intros Hres Hmiss. rewrite Hmiss in Hres.
  set (w1 := socket_send _ (print _ w)) in Hres.
  rewrite receive_arp_response_wait in Hres. cbv zeta in Hres.
  pose proof (wait_loop_some
                (fun data => Ok (arp_response_verdict hop data))
                (pending w1) 1 (waited w1)) as Hsome.
  destruct (wait_loop _ _ _ _) as [[r rx] t]. cbn [fst snd] in Hres, Hsome.
  destruct r as [[response|]|e]; [|discriminate Hres|discriminate Hres].
  injection Hres as <- <-.
  split; [reflexivity|].
  destruct (Hsome response eq_refl) as (t0 & data & Hin & Htest).
  assert (Hv : arp_response_verdict hop data = Some response) by congruence.
  destruct (arp_response_verdict_some hop data response Hv)
    as (Hdst & Htype & Hp & Hspa).
  exists t0, data. split; [exact Hin|]. split; [exact Hdst|].
  split; [exact Htype|]. rewrite <- Hp. split; [exact Hspa | reflexivity].
Qed.

Lemma resolve_ip_addr_learns_from_a_response_witness :
  resolve_ip_addr [x08; x08; x08; x08] router_answers_late
  = (Ok (Some router_mac_addr),
     (resolve_ip_addr [x08; x08; x08; x08] router_answers_late).2)
  /\ ARP_TABLE router_answers_late !! next_hop [x08; x08; x08; x08] = None
  /\ ARP_TABLE (resolve_ip_addr [x08; x08; x08; x08] router_answers_late).2
     = <[next_hop [x08; x08; x08; x08] := router_mac_addr]>
         (ARP_TABLE router_answers_late)
  /\ exists t data,
      (t, data) ∈ pending router_answers_late
      /\ EthernetFrame.dst_addr (decode_ethernet_frame data) = MY_MAC_ADDR
      /\ EthernetFrame.ethertype (decode_ethernet_frame data) = ARP
      /\ ArpPacket.spa
           (decode_arp_packet (EthernetFrame.payload (decode_ethernet_frame data)))
         = next_hop [x08; x08; x08; x08]
      /\ router_mac_addr
         = ArpPacket.sha
             (decode_arp_packet
                (EthernetFrame.payload (decode_ethernet_frame data))).
Proof.
  assert (Hres : resolve_ip_addr [x08; x08; x08; x08] router_answers_late
                 = (Ok (Some router_mac_addr),
                    (resolve_ip_addr [x08; x08; x08; x08]
                       router_answers_late).2))
    by reflexivity.
  assert (Hmiss : ARP_TABLE router_answers_late
                    !! next_hop [x08; x08; x08; x08] = None)
    by reflexivity.
  split; [exact Hres|]. split; [exact Hmiss|].
  exact (resolve_ip_addr_learns_from_a_response [x08; x08; x08; x08]
           router_answers_late _ _ Hres Hmiss).
Defined.

(** ** What the filters do with this host's own frames *)

(** X21: the packet socket also delivers the frames this host sends, and
    the filters do not mistake them for answers.  The ARP broadcast of a
    resolution is never accepted as an ARP response; an echo request
    addressed to a 6-byte MAC address other than this host's is passed
    over by the echo-reply test, and no IPv4 frame is taken for an ARP
    response. *)
Theorem own_frames_are_not_taken_for_replies :
  (forall sender_ip_addr ip_addr : bytes,
      arp_response_verdict sender_ip_addr (arp_broadcast ip_addr) = None)
  /\ (forall (src_ip_addr : bytes) (identifier sequence_no : Z)
             (dst_mac payload : bytes),
         length dst_mac = 6%nat ->
         dst_mac <> MY_MAC_ADDR ->
         echo_reply_verdict src_ip_addr identifier sequence_no
           (ethernet_frame dst_mac MY_MAC_ADDR IPV4 payload) = Ok None)
  /\ (forall sender_ip_addr dst_mac payload : bytes,
         length dst_mac = 6%nat ->
         arp_response_verdict sender_ip_addr
           (ethernet_frame dst_mac MY_MAC_ADDR IPV4 payload) = None).
Proof.
  split; [|split].
  - intros sender_ip_addr ip_addr. reflexivity.
  - intros src_ip_addr identifier sequence_no dst_mac payload Hlen Hne.
    unfold echo_reply_verdict. cbv zeta.
    rewrite decode_ethernet_frame_built by (exact Hlen || reflexivity).
    cbn [EthernetFrame.dst_addr].
    rewrite (bool_decide_eq_false_2 _ Hne). reflexivity.
  - intros sender_ip_addr dst_mac payload Hlen.
    unfold arp_response_verdict. cbv zeta.
    rewrite decode_ethernet_frame_built by (exact Hlen || reflexivity).
    cbn [EthernetFrame.dst_addr EthernetFrame.ethertype].
    rewrite (bool_decide_eq_false_2 (IPV4 = ARP)) by discriminate.
    rewrite andb_false_r. reflexivity.
Qed.

Lemma own_frames_are_not_taken_for_replies_witness :
  arp_response_verdict ROUTER_IP_ADDR (arp_broadcast ROUTER_IP_ADDR) = None
  /\ echo_reply_verdict ROUTER_IP_ADDR 1 1
       (ethernet_frame router_mac_addr MY_MAC_ADDR IPV4
          (list_byte_of_string "Hello, world!")) = Ok None
  /\ arp_response_verdict ROUTER_IP_ADDR
       (ethernet_frame router_mac_addr MY_MAC_ADDR IPV4
          (list_byte_of_string "Hello, world!")) = None.
Proof.
  destruct own_frames_are_not_taken_for_replies as (Harp & Hecho & Hip).
  split; [apply Harp|]. split.
  - apply Hecho; [reflexivity | discriminate].
  - apply Hip. reflexivity.
Defined.

(** ** Sending an echo request *)

Lemma echo_request_packet_decodes (identifier sequence_no : Z)
    (dst_ip_addr : bytes) :
  0 <= identifier < 65536 ->
  0 <= sequence_no < 65536 ->
  length dst_ip_addr = 4%nat ->
  exists icmp packet ipv4_packet icmp_packet,
    icmp_ping_request_packet identifier sequence_no = Ok icmp
    /\ ip4_packet MY_IP_ADDR dst_ip_addr 1 icmp = Ok packet
    /\ decode_ipv4_packet packet = Ok ipv4_packet
    /\ Ipv4Packet.src_addr ipv4_packet = MY_IP_ADDR
    /\ Ipv4Packet.dst_addr ipv4_packet = dst_ip_addr
    /\ Ipv4Packet.protocol ipv4_packet = 1
    /\ decode_icmp_packet (Ipv4Packet.payload ipv4_packet) = Ok icmp_packet
    /\ IcmpPacket.type icmp_packet = 8
    /\ IcmpPacket.identifier icmp_packet = identifier
    /\ IcmpPacket.sequence_no icmp_packet = sequence_no.
Proof.
  intros Hi Hs Hd.
  pose proof (icmp_ping_request_packet_ok identifier sequence_no Hi Hs) as Hicmp.
  cbv zeta in Hicmp.
  set (icmp := setslice 2 4 _ _) in Hicmp.
  assert (Hicmp_len : length icmp = 16%nat) by reflexivity.
  pose proof (ip4_packet_ok MY_IP_ADDR dst_ip_addr 1 icmp eq_refl Hd
                ltac:(lia) ltac:(rewrite Hicmp_len; simpl; lia)) as Hip.
  cbv zeta in Hip.
  destruct dst_ip_addr as [|d0 [|d1 [|d2 [|d3 [|]]]]]; try discriminate Hd.
  set (header := setslice 10 12 _ _) in Hip.
  exists icmp, (header ++ icmp). eexists. eexists.
  split; [exact Hicmp|]. split; [exact Hip|].
  split; [reflexivity|].
  cbn [Ipv4Packet.src_addr Ipv4Packet.dst_addr Ipv4Packet.protocol
       Ipv4Packet.payload].
  split; [reflexivity|]. split; [reflexivity|]. split; [reflexivity|].
  split; [reflexivity|].
  cbn [IcmpPacket.type IcmpPacket.identifier IcmpPacket.sequence_no].
  split; [reflexivity|].
  split; [exact (int_from_to_bytes_2 identifier Hi)|].
  exact (int_from_to_bytes_2 sequence_no Hs).
Qed.

(** X22: when the resolver returns a MAC address, [send_echo_request]
    sends exactly one frame and changes nothing else.  The frame goes to
    the resolved MAC address, from this host, with the IPv4 ethertype; its
    IPv4 packet is from this host to the destination that was asked for
    (also when the MAC address is the gateway's) with protocol 1, and
    carries an echo request with the given identifier and sequence
    number. *)
Theorem send_echo_request_sends_one_frame (dst_ip_addr : bytes)
    (identifier sequence_no : Z) (mac : bytes) (w w' : World) :
  resolve_ip_addr dst_ip_addr w = (Ok (Some mac), w') ->
  0 <= identifier < 65536 ->
  0 <= sequence_no < 65536 ->
  length mac = 6%nat ->
  length dst_ip_addr = 4%nat ->
  exists frame ipv4_packet icmp_packet,
    send_echo_request dst_ip_addr identifier sequence_no w
    = (Ok tt, socket_send frame w')
    /\ EthernetFrame.dst_addr (decode_ethernet_frame frame) = mac
    /\ EthernetFrame.src_addr (decode_ethernet_frame frame) = MY_MAC_ADDR
    /\ EthernetFrame.ethertype (decode_ethernet_frame frame) = IPV4
    /\ decode_ipv4_packet (EthernetFrame.payload (decode_ethernet_frame frame))
       = Ok ipv4_packet
    /\ Ipv4Packet.src_addr ipv4_packet = MY_IP_ADDR
    /\ Ipv4Packet.dst_addr ipv4_packet = dst_ip_addr
    /\ Ipv4Packet.protocol ipv4_packet = 1
    /\ decode_icmp_packet (Ipv4Packet.payload ipv4_packet) = Ok icmp_packet
    /\ IcmpPacket.type icmp_packet = 8
    /\ IcmpPacket.identifier icmp_packet = identifier
    /\ IcmpPacket.sequence_no icmp_packet = sequence_no.
Proof.
  intros Hres Hi Hs Hmac Hd.
  destruct (echo_request_packet_decodes identifier sequence_no dst_ip_addr
              Hi Hs Hd)
    as (icmp & packet & ipv4_packet & icmp_packet & Hicmp & Hip & Hdec & Hrest).
  exists (ethernet_frame mac MY_MAC_ADDR IPV4 packet), ipv4_packet, icmp_packet.
  rewrite decode_ethernet_frame_built by (exact Hmac || reflexivity).
  cbn [EthernetFrame.dst_addr EthernetFrame.src_addr EthernetFrame.ethertype
       EthernetFrame.payload].
  split.
  - unfold send_echo_request. rewrite Hres, Hicmp. cbn [rbind].
    rewrite Hip. reflexivity.
  - split; [reflexivity|]. split; [reflexivity|]. split; [reflexivity|].
    split; [exact Hdec | exact Hrest].
Qed.

Lemma send_echo_request_sends_one_frame_witness :
  exists frame ipv4_packet icmp_packet,
    send_echo_request [x08; x08; x08; x08] 1 1 router_answers
    = (Ok tt, socket_send frame router_resolved)
    /\ EthernetFrame.dst_addr (decode_ethernet_frame frame)
       = [x00; x1f; x16; xf8; x37; x86]
    /\ EthernetFrame.src_addr (decode_ethernet_frame frame) = MY_MAC_ADDR
    /\ EthernetFrame.ethertype (decode_ethernet_frame frame) = IPV4
    /\ decode_ipv4_packet (EthernetFrame.payload (decode_ethernet_frame frame))
       = Ok ipv4_packet
    /\ Ipv4Packet.src_addr ipv4_packet = MY_IP_ADDR
    /\ Ipv4Packet.dst_addr ipv4_packet = [x08; x08; x08; x08]
    /\ Ipv4Packet.protocol ipv4_packet = 1
    /\ decode_icmp_packet (Ipv4Packet.payload ipv4_packet) = Ok icmp_packet
    /\ IcmpPacket.type icmp_packet = 8
    /\ IcmpPacket.identifier icmp_packet = 1
    /\ IcmpPacket.sequence_no icmp_packet = 1.
Proof.
  apply (send_echo_request_sends_one_frame [x08; x08; x08; x08] 1 1
           [x00; x1f; x16; xf8; x37; x86] router_answers router_resolved);
    first [reflexivity | lia].
Defined.

(** ** What the echo-reply test accepts *)

Lemma echo_reply_verdict_accepts
    (src_ip_addr src_mac : bytes) (identifier sequence_no : Z)
    (type code c0 c1 : byte) (body trailer : bytes) :
  length src_ip_addr = 4%nat ->
  length src_mac = 6%nat ->
  0 <= identifier < 65536 ->
  0 <= sequence_no < 65536 ->
  Z.of_nat (length body) <= 65507 ->
  exists packet,
    ip4_packet src_ip_addr MY_IP_ADDR 1
      ([type; code; c0; c1;
        byte_of_Z ((identifier / 256) mod 256); byte_of_Z (identifier mod 256);
        byte_of_Z ((sequence_no / 256) mod 256); byte_of_Z (sequence_no mod 256)]
         ++ body)
    = Ok packet
    /\ echo_reply_verdict src_ip_addr identifier sequence_no
         (ethernet_frame MY_MAC_ADDR src_mac IPV4 (packet ++ trailer))
       = Ok (Some {| IcmpPacket.type := byte_to_Z type;
                     IcmpPacket.code := byte_to_Z code;
                     IcmpPacket.checksum := [c0; c1];
                     IcmpPacket.identifier := identifier;
                     IcmpPacket.sequence_no := sequence_no;
                     IcmpPacket.payload := body ++ trailer |}).
Proof.
  intros Hsrc Hmac Hi Hs Hbody.
  set (icmp := [type; code; c0; c1; _; _; _; _] ++ body).
  assert (Hlen : Z.of_nat (length icmp) <= 65515)
    by (unfold icmp; rewrite length_app; simpl length; lia).
  pose proof (ip4_packet_ok src_ip_addr MY_IP_ADDR 1 icmp Hsrc eq_refl
                ltac:(lia) Hlen) as Hip.
  cbv zeta in Hip.
  destruct src_ip_addr as [|s0 [|s1 [|s2 [|s3 [|]]]]]; try discriminate Hsrc.
  set (header := setslice 10 12 _ _) in Hip.
  exists (header ++ icmp). split; [exact Hip|].
  unfold echo_reply_verdict. cbv zeta.
  rewrite decode_ethernet_frame_built by (exact Hmac || reflexivity).
  cbn [EthernetFrame.dst_addr EthernetFrame.ethertype EthernetFrame.payload].
  rewrite !bool_decide_eq_true_2 by reflexivity. cbn [andb].
  change (decode_ipv4_packet ((header ++ icmp) ++ trailer))
    with (Ok {| Ipv4Packet.version_ihl := 69;
                Ipv4Packet.type := 0;
                Ipv4Packet.length := slice 2 4 header;
                Ipv4Packet.id := [x00; x00];
                Ipv4Packet.flags_offset := [x40; x00];
                Ipv4Packet.ttl := 64;
                Ipv4Packet.protocol := byte_to_Z (byte_of_Z 1);
                Ipv4Packet.checksum := slice 10 12 header;
                Ipv4Packet.src_addr := [s0; s1; s2; s3];
                Ipv4Packet.dst_addr := MY_IP_ADDR;
                Ipv4Packet.payload := icmp ++ trailer |}).
  cbn [rbind Ipv4Packet.dst_addr Ipv4Packet.src_addr Ipv4Packet.protocol
       Ipv4Packet.payload].
  rewrite !bool_decide_eq_true_2 by reflexivity. cbn [andb].
  change (decode_icmp_packet (icmp ++ trailer))
    with (Ok {| IcmpPacket.type := byte_to_Z type;
                IcmpPacket.code := byte_to_Z code;
                IcmpPacket.checksum := [c0; c1];
                IcmpPacket.identifier :=
                  int_from_bytes
                    [byte_of_Z ((identifier / 256) mod 256);
                     byte_of_Z (identifier mod 256)];
                IcmpPacket.sequence_no :=
                  int_from_bytes
                    [byte_of_Z ((sequence_no / 256) mod 256);
                     byte_of_Z (sequence_no mod 256)];
                IcmpPacket.payload := body ++ trailer |}).
  cbn [rbind IcmpPacket.identifier IcmpPacket.sequence_no].
  rewrite (int_from_to_bytes_2 identifier Hi).
  rewrite (int_from_to_bytes_2 sequence_no Hs).
  rewrite !bool_decide_eq_true_2 by reflexivity. reflexivity.
Qed.

(** X23: the echo-reply test looks at addresses, protocol, identifier and
    sequence number only.  An ICMP message of any type and code, with any
    checksum bytes, that reaches this host in an IPv4 packet from the
    pinged address (as [ip4_packet] builds it) is returned when its
    identifier and sequence number are the expected ones; whatever follows
    the packet in the frame, such as Ethernet padding, comes back as part
    of the ICMP payload, since the IPv4 total length is not consulted. *)
Theorem echo_reply_test_ignores_type_and_checksum
    (src_ip_addr src_mac : bytes) (identifier sequence_no : Z)
    (type code c0 c1 : byte) (body trailer : bytes) :
  length src_ip_addr = 4%nat ->
  length src_mac = 6%nat ->
  0 <= identifier < 65536 ->
  0 <= sequence_no < 65536 ->
  Z.of_nat (length body) <= 65507 ->
  exists packet,
    ip4_packet src_ip_addr MY_IP_ADDR 1
      ([type; code; c0; c1;
        byte_of_Z ((identifier / 256) mod 256); byte_of_Z (identifier mod 256);
        byte_of_Z ((sequence_no / 256) mod 256); byte_of_Z (sequence_no mod 256)]
         ++ body)
    = Ok packet
    /\ echo_reply_verdict src_ip_addr identifier sequence_no
         (ethernet_frame MY_MAC_ADDR src_mac IPV4 (packet ++ trailer))
       = Ok (Some {| IcmpPacket.type := byte_to_Z type;
                     IcmpPacket.code := byte_to_Z code;
                     IcmpPacket.checksum := [c0; c1];
                     IcmpPacket.identifier := identifier;
                     IcmpPacket.sequence_no := sequence_no;
                     IcmpPacket.payload := body ++ trailer |}).
Proof.
  exact (echo_reply_verdict_accepts src_ip_addr src_mac identifier sequence_no type code c0 c1 body trailer).
Qed.

Lemma echo_reply_test_ignores_type_and_checksum_witness :
  exists packet,
    ip4_packet ROUTER_IP_ADDR MY_IP_ADDR 1
      ([x00; x00; xaa; x8c;
        byte_of_Z ((1 / 256) mod 256); byte_of_Z (1 mod 256);
        byte_of_Z ((1 / 256) mod 256); byte_of_Z (1 mod 256)]
         ++ list_byte_of_string "Python!!")
    = Ok packet
    /\ echo_reply_verdict ROUTER_IP_ADDR 1 1
         (ethernet_frame MY_MAC_ADDR router_mac_addr IPV4
            (packet ++ replicate 10 x00))
       = Ok (Some {| IcmpPacket.type := byte_to_Z x00;
                     IcmpPacket.code := byte_to_Z x00;
                     IcmpPacket.checksum := [xaa; x8c];
                     IcmpPacket.identifier := 1;
                     IcmpPacket.sequence_no := 1;
                     IcmpPacket.payload :=
                       list_byte_of_string "Python!!" ++ replicate 10 x00 |}).
Proof.
  apply (echo_reply_test_ignores_type_and_checksum ROUTER_IP_ADDR
           router_mac_addr 1 1 x00 x00 xaa x8c
           (list_byte_of_string "Python!!") (replicate 10 x00));
    first [reflexivity | lia | (simpl; lia)].
Defined.
